(** * nyuki: a shallow embedding of the agent, its HTTP middleware and the
      sample application

    The development follows the layout of the repository:

    - [Py]            the fragment of Python the sources rely on: values,
                      exceptions, subscripting, and a state-and-exception
                      monad for method bodies;
    - [Api]           [nyuki/api.py]: the [Method] enumeration and the
                      [mw_capability] middleware;
    - [Capabilities]  the [Response] pair, the [Exposer] and route matching;
    - [Bus]           the bus operations exercised by [tests/bus_test.py];
    - [Agent]         [nyuki/nyuki.py]: the [Nyuki] class and its built-in
                      [/config] capability;
    - [Sample]        [examples/sample.py];
    - [HttpServer]    [nyuki/api.py]: the [Api] class.

    Definitions come first; the properties are proved afterwards. *)

From Stdlib Require Import ZArith String Ascii List Bool Lia.
From stdpp Require Import base option list gmap strings.

Set Warnings "-register-all".
Local Open Scope string_scope.
Local Open Scope list_scope.

(* ===================================================================== *)
(** ** Python values, exceptions and effects *)
(* ===================================================================== *)

Module Py.

(** JSON-like Python values.  A [dict] with string keys is a finite map. *)
Inductive pyval : Type :=
| PNone
| PBool (b : bool)
| PInt (z : Z)
| PStr (s : string)
| PList (l : list pyval)
| PDict (d : gmap string pyval).

(** The exception objects that occur in the sources.  [SystemExit] stands
    for the exceptions that derive from [BaseException] only; every other
    constructor is a subclass of [Exception]. *)
Inductive exn : Type :=
| HTTPNotFound
| KeyError (key : string)
| TypeError (msg : string)
| ValidationError (message : string)
| ValueError (msg : string)
| ClientOSError
| RuntimeError (msg : string)
| SystemExit (code : Z).

(** [isinstance(e, Exception)] *)
Definition is_Exception (e : exn) : bool :=
  match e with
  | SystemExit _ => false
  | _ => true
  end.

(** [isinstance(e, web.HTTPNotFound)] *)
Definition is_HTTPNotFound (e : exn) : bool :=
  match e with
  | HTTPNotFound => true
  | _ => false
  end.

(** [isinstance(e, KeyError)] *)
Definition is_KeyError (e : exn) : bool :=
  match e with
  | KeyError _ => true
  | _ => false
  end.

(** [isinstance(e, ValidationError)] *)
Definition is_ValidationError (e : exn) : bool :=
  match e with
  | ValidationError _ => true
  | _ => false
  end.

(** The [message] attribute of a [jsonschema.ValidationError]. *)
Definition message_of (e : exn) : string :=
  match e with
  | ValidationError m => m
  | _ => ""
  end.

(** Outcome of evaluating an expression or a call. *)
Inductive result (A : Type) : Type :=
| Return (a : A)
| Raise (e : exn).
Arguments Return {A} a.
Arguments Raise {A} e.

(** Truth value of an object, as tested by [if] and [and]. *)
Definition py_truthy (v : pyval) : bool :=
  match v with
  | PNone => false
  | PBool b => b
  | PInt z => negb (Z.eqb z 0)
  | PStr s => negb (String.eqb s "")
  | PList l => negb (Nat.eqb (length l) 0)
  | PDict d => negb (Nat.eqb (size d) 0)
  end.

(** [d[k]] on a dict *)
Definition dict_getitem (d : gmap string pyval) (k : string) : result pyval :=
  match d !! k with
  | Some v => Return v
  | None => Raise (KeyError k)
  end.

(** [k in d] on a dict *)
Definition dict_contains (k : string) (d : gmap string pyval) : bool :=
  match d !! k with
  | Some _ => true
  | None => false
  end.

(** [v[k]] with a string subscript: only a dict accepts it. *)
Definition py_getitem (v : pyval) (k : string) : result pyval :=
  match v with
  | PDict d => dict_getitem d k
  | PStr _ => Raise (TypeError "string indices must be integers")
  | PList _ => Raise (TypeError "list indices must be integers or slices, not str")
  | _ => Raise (TypeError "object is not subscriptable")
  end.

(** [**v] in a call: the argument has to be a mapping. *)
Definition py_kwargs (v : pyval) : result (gmap string pyval) :=
  match v with
  | PDict d => Return d
  | _ => Raise (TypeError "argument after ** must be a mapping")
  end.

(** Method bodies: a computation reads and updates the state [S] of the
    objects it works on and either returns or raises.  State changes made
    before an exception is raised are kept, as in Python. *)
Definition M (S A : Type) : Type := S -> result A * S.

Definition ret {S A} (a : A) : M S A := fun s => (Return a, s).

Definition raise {S A} (e : exn) : M S A := fun s => (Raise e, s).

Definition bind {S A B} (c : M S A) (k : A -> M S B) : M S B :=
  fun s =>
    match c s with
    | (Return a, s') => k a s'
    | (Raise e, s') => (Raise e, s')
    end.

Definition get {S} : M S S := fun s => (Return s, s).

Definition modify {S} (f : S -> S) : M S unit := fun s => (Return tt, f s).

(** Lift the outcome of a pure expression. *)
Definition lift {S A} (r : result A) : M S A := fun s => (r, s).

(** [try: body  except E as e: handler e]; the value of [body] is the value
    of the statement when nothing is raised. *)
Definition try_except {S A} (body : M S A) (E : exn -> bool)
    (handler : exn -> M S A) : M S A :=
  fun s =>
    match body s with
    | (Return a, s') => (Return a, s')
    | (Raise e, s') => if E e then handler e s' else (Raise e, s')
    end.

(** [try: body  except E as e: handler e  else: orelse].  Exceptions raised
    by [orelse] are not caught by the [except] clause. *)
Definition try_except_else {S A B} (body : M S A) (E : exn -> bool)
    (handler : exn -> M S B) (orelse : A -> M S B) : M S B :=
  fun s =>
    match body s with
    | (Return a, s') => orelse a s'
    | (Raise e, s') => if E e then handler e s' else (Raise e, s')
    end.

End Py.

Declare Scope py_scope.
Delimit Scope py_scope with py.
Notation "x <- c1 ;; c2" := (Py.bind c1 (fun x => c2))
  (at level 100, c1 at next level, right associativity) : py_scope.
Notation "c1 ;; c2" := (Py.bind c1 (fun _ => c2))
  (at level 100, right associativity) : py_scope.

Import Py.

(* ===================================================================== *)
(** ** nyuki/api.py *)
(* ===================================================================== *)

Module Api.

(** Supported HTTP methods by the REST API. *)
Inductive Method : Type :=
| GET | POST | PUT | DELETE | HEAD | OPTIONS | TRACE | CONNECT | PATCH.

Definition Method_name (m : Method) : string :=
  match m with
  | GET => "GET"
  | POST => "POST"
  | PUT => "PUT"
  | DELETE => "DELETE"
  | HEAD => "HEAD"
  | OPTIONS => "OPTIONS"
  | TRACE => "TRACE"
  | CONNECT => "CONNECT"
  | PATCH => "PATCH"
  end.

(** [Method.list()]: the member names in declaration order. *)
Definition Method_list : list string :=
  map Method_name [GET; POST; PUT; DELETE; HEAD; OPTIONS; TRACE; CONNECT; PATCH].

Definition Method_eqb (a b : Method) : bool :=
  String.eqb (Method_name a) (Method_name b).

(** An [aiohttp.web.Response]: the status line and the payload. *)
Record web_Response : Type := mk_web_Response {
  status : Z;
  body : option string
}.

(** [web.Response()]: every argument at its default. *)
Definition web_Response_default : web_Response :=
  {| status := 200; body := None |}.

(** What a capability handler may hand back to the middleware: a
    [web.Response] object or any other Python value ([None] when the
    handler has no [return]). *)
Inductive capa_result : Type :=
| Response_object (r : web_Response)
| Other_value (v : pyval).

(** Truth value of the handler's result.  A response object defines neither
    [__bool__] nor [__len__], so it is true. *)
Definition truthy (c : capa_result) : bool :=
  match c with
  | Response_object _ => true
  | Other_value v => py_truthy v
  end.

(** [isinstance(c, web.Response)], with the object seen at that class. *)
Definition as_web_Response (c : capa_result) : option web_Response :=
  match c with
  | Response_object r => Some r
  | Other_value _ => None
  end.

(** The incoming request, as far as the middleware looks at it. *)
Record Request : Type := mk_Request {
  method : Method;
  path : string;
  match_info : list (string * string);
  json_body : pyval
}.

(** The context handed to [loop.call_exception_handler]. *)
Record exc_context : Type := mk_exc_context {
  ctx_message : string;
  ctx_exception : exn
}.

(** The event loop behind [app.loop]: the [_exception_handler] attribute
    ([true] when a handler has been set) and the contexts that were
    reported to it.  [U] is the state the handlers themselves work on. *)
Record Loop (U : Type) : Type := mk_Loop {
  _exception_handler : bool;
  reported : list exc_context;
  user : U
}.
Arguments mk_Loop {U} _ _ _.
Arguments _exception_handler {U} _.
Arguments reported {U} _.
Arguments user {U} _.

(** [loop.call_exception_handler(context)]: the context is passed to the
    handler that was set; nothing is raised back to the caller. *)
Definition call_exception_handler {U} (ctx : exc_context) : M (Loop U) unit :=
  modify (fun l => mk_Loop (_exception_handler l) (reported l ++ [ctx]) (user l)).

(** Signature of the callable wrapped by the middleware:
    [capa_handler(request, **request.match_info)]. *)
Definition handler_t (U : Type) : Type :=
  Request -> list (string * string) -> M (Loop U) capa_result.

Section Middleware.
Context {U : Type}.
(** The builtin [str] on exception objects. *)
Variable str : exn -> string.

(** The [except Exception as exc] clause of the middleware. *)
Definition report_and_reraise (exc : exn) : M (Loop U) capa_result :=
  (l <- get ;;
   (if _exception_handler l
    then call_exception_handler
           {| ctx_message := str exc; ctx_exception := exc |}
    else ret tt) ;;
   raise exc)%py.

(** The [try] statement of the middleware.  The first clause,
    [except web.HTTPNotFound: raise], re-raises; the second one,
    [except Exception as exc], reports and re-raises. *)
Definition call_capability (capa_handler : handler_t U) (request : Request)
    : M (Loop U) capa_result :=
  try_except (capa_handler request (match_info request))
    (fun e => is_HTTPNotFound e || is_Exception e)
    (fun e => if is_HTTPNotFound e then raise e else report_and_reraise e).

(** [mw_capability(app, capa_handler)] applied to a request: the [try]
    statement, then
    [if capa_resp and isinstance(capa_resp, web.Response): return capa_resp]
    and the final [return web.Response()]. *)
Definition mw_capability (capa_handler : handler_t U) (request : Request)
    : M (Loop U) web_Response :=
  (capa_resp <- call_capability capa_handler request ;;
   if truthy capa_resp
   then match as_web_Response capa_resp with
        | Some r => ret r
        | None => ret web_Response_default
        end
   else ret web_Response_default)%py.
End Middleware.

End Api.

(* ===================================================================== *)
(** ** nyuki/capabilities.py *)
(* ===================================================================== *)

Module Capabilities.

(** Modelled from the spec: the [Response] class of [nyuki.capabilities] is
    not part of the sources at hand.  A response is a status code and a
    JSON-serializable body; the status defaults to 200. *)
Record Response : Type := mk_Response {
  body : pyval;
  status : Z
}.

(** [Response(body)] *)
Definition Response_of (b : pyval) : Response := {| body := b; status := 200 |}.

(** An endpoint template.  [Static p] is a literal path; [Numeric p name] is
    a literal prefix followed by one parameter declared with [\d+], as in
    [/message/{mid:\d+}]. *)
Inductive endpoint : Type :=
| Static (p : string)
| Numeric (prefix : string) (name : string).

Definition is_digit (c : ascii) : bool :=
  (48 <=? nat_of_ascii c)%nat && (nat_of_ascii c <=? 57)%nat.

Fixpoint all_digits (s : string) : bool :=
  match s with
  | EmptyString => true
  | String c s' => is_digit c && all_digits s'
  end.

(** A whole-string match of [\d+]: at least one character, digits only. *)
Definition numeric (s : string) : bool :=
  match s with
  | EmptyString => false
  | String _ _ => all_digits s
  end.

(** [strip_prefix p s] is the rest of [s] after the prefix [p]. *)
Fixpoint strip_prefix (p s : string) : option string :=
  match p with
  | EmptyString => Some s
  | String a p' =>
      match s with
      | EmptyString => None
      | String b s' => if Ascii.eqb a b then strip_prefix p' s' else None
      end
  end.

(** Modelled from the spec: route matching belongs to the Exposer and the
    HTTP library, neither of which is part of the sources at hand.  A
    request whose parameter does not have the declared shape fails the
    match; a successful match yields the path parameters. *)
Definition route_match (e : endpoint) (path : string)
    : option (list (string * string)) :=
  match e with
  | Static p => if String.eqb p path then Some [] else None
  | Numeric prefix name =>
      match strip_prefix prefix path with
      | Some seg => if numeric seg then Some [(name, seg)] else None
      | None => None
      end
  end.

(** One line of the routing table: a method of a capability. *)
Record Route (S R : Type) : Type := mk_Route {
  route_method : Api.Method;
  route_endpoint : endpoint;
  route_handler : pyval -> list (string * string) -> M S R
}.
Arguments mk_Route {S R} _ _ _.
Arguments route_method {S R} _.
Arguments route_endpoint {S R} _.
Arguments route_handler {S R} _.

(** Modelled from the spec: the dispatch of the Exposer is not part of the
    sources at hand.  The first route that matches the method and the path
    is invoked with the path parameters; when no route matches, the request
    never reaches a handler and "not found" is raised. *)
Fixpoint dispatch {S R} (routes : list (Route S R)) (m : Api.Method)
    (path : string) (request : pyval) : M S R :=
  match routes with
  | [] => raise HTTPNotFound
  | r :: rest =>
      if Api.Method_eqb (route_method r) m
      then match route_match (route_endpoint r) path with
           | Some params => route_handler r request params
           | None => dispatch rest m path request
           end
      else dispatch rest m path request
  end.

(** Modelled from the spec: the HTTP server that turns an exception which
    leaves the middleware into a reply is not part of the sources at hand.
    "Not found" is a 404; anything else is a generic failure. *)
Definition status_of_exn (e : exn) : Z :=
  if is_HTTPNotFound e then 404 else 500.

(** A capability as the Exposer keeps it. *)
Record Capability : Type := mk_Capability {
  name : string;
  cap_endpoint : endpoint;
  version : option string;
  methods : list Api.Method
}.

(** Modelled from the spec: the [Exposer] class is not part of the sources
    at hand.  It owns the registered capabilities and the HTTP server;
    [listening] holds the options the server was built with while it is
    serving. *)
Record Exposer : Type := mk_Exposer {
  capabilities : list Capability;
  listening : option (gmap string pyval)
}.

(** Modelled from the spec: [restart], called with keyword options, tears
    the server down and rebuilds it with the new options, preserving the
    registered capabilities. *)
Definition Exposer_restart (options : gmap string pyval) (e : Exposer) : Exposer :=
  {| capabilities := capabilities e; listening := Some options |}.

(** Modelled from the spec: [shutdown()] closes the listening socket and
    returns once the pending requests are done. *)
Definition Exposer_shutdown (e : Exposer) : Exposer :=
  {| capabilities := capabilities e; listening := None |}.

End Capabilities.

(* ===================================================================== *)
(** ** nyuki/bus.py, as exercised by tests/bus_test.py *)
(* ===================================================================== *)

Module Bus.

(** A message stanza handed to the chat transport. *)
Record Stanza : Type := mk_Stanza {
  msg_type : string;
  msg_to : string;
  msg_body : string
}.

(** An HTTP call performed for a bus request. *)
Record HttpCall : Type := mk_HttpCall {
  http_method : string;
  http_url : string;
  http_data : string
}.

(** Everything the bus has put on the network: the stanzas sent to the chat
    transport and the HTTP calls issued, oldest first. *)
Record Wire : Type := mk_Wire {
  sent : list Stanza;
  http_calls : list HttpCall
}.

(** The response-like object of a request: [.status] and [.json]. *)
Record BusResponse : Type := mk_BusResponse {
  resp_status : Z;
  resp_json : option pyval
}.

(** What [request] hands back to its caller: the response, or the exception
    object of a failed transport. *)
Inductive Outcome : Type :=
| Answer (r : BusResponse)
| Failure (exc : exn).

(** The transport-level errors of the HTTP client. *)
Definition is_transport_error (e : exn) : bool :=
  match e with
  | ClientOSError => true
  | _ => false
  end.

(** [str.format] on the recipient; [None] prints as its name. *)
Definition format_recipient (recipient : option string) : string :=
  match recipient with
  | Some r => r
  | None => "None"
  end.

Section Messaging.
(** The agent's own topic and the host of its identity. *)
Variables (topic host : string).
(** [json.dumps] and [repr] on exception objects. *)
Variable json_dumps : pyval -> string.
Variable repr : exn -> string.
(** The HTTP client: what a call with the given method, url and data
    yields. *)
Variable http_request : string -> string -> string -> result BusResponse.

(** [_muc_address(topic)], as checked by [test_005_muc_address]. *)
Definition _muc_address (t : string) : string := t +:+ "@mucs." +:+ host.

Definition send (m : Stanza) : M Wire unit :=
  modify (fun w => {| sent := sent w ++ [m]; http_calls := http_calls w |}).

(** Modelled from the spec: [Bus.publish] is not part of the sources at
    hand.  It fails with a type error if the payload is not a structured
    mapping; otherwise it serializes the payload to JSON and sends it to
    the agent's own topic, without any response correlation. *)
Definition publish (payload : pyval) : M Wire unit :=
  match payload with
  | PDict _ =>
      send {| msg_type := "groupchat";
              msg_to := _muc_address topic;
              msg_body := json_dumps payload |}
  | _ => raise (TypeError "Message must be a dictionary")
  end.

(** Modelled from the spec: [Bus._execute_request] is not part of the
    sources at hand.  It builds a JSON body from the data and sends it
    with the method and url over HTTP. *)
Definition _execute_request (url method : string) (data : pyval)
    : M Wire BusResponse :=
  (modify (fun w => {| sent := sent w;
                       http_calls := http_calls w ++
                         [{| http_method := method; http_url := url;
                             http_data := json_dumps data |}] |}) ;;
   lift (http_request method url (json_dumps data)))%py.

(** The url of an endpoint of another agent, as expected by
    [test_001c_request_error]. *)
Definition request_url (recipient : option string) (endpoint : string) : string :=
  "http://localhost:8080/" +:+ format_recipient recipient +:+ "/api/" +:+ endpoint.

(** The error document published when a request fails. *)
Definition error_document (url : string) (exc : exn) (data : pyval) : pyval :=
  PDict (<["endpoint" := PStr url]>
         (<["error" := PStr (repr exc)]>
         (<["data" := data]> ∅))).

(** Modelled from the spec: [Bus.request] is not part of the sources at
    hand.  On a transport-level error the call does not raise: it
    publishes the error document on the bus and returns the underlying
    exception. *)
Definition request (recipient : option string) (endpoint method : string)
    (data : pyval) : M Wire Outcome :=
  let url := request_url recipient endpoint in
  try_except
    (response <- _execute_request url method data ;; ret (Answer response))%py
    is_transport_error
    (fun exc => publish (error_document url exc data) ;; ret (Failure exc))%py.
End Messaging.

End Bus.

(* ===================================================================== *)
(** ** nyuki/nyuki.py *)
(* ===================================================================== *)

Module Agent.
Import Capabilities.

(** A [Bus] object as the agent sees it: its identity as an object and the
    keyword arguments it was constructed with. *)
Record BusObject : Type := mk_BusObject {
  oid : nat;
  kwargs : gmap string pyval
}.

(** The calls the agent makes on its collaborators.  A [timeout] of [None]
    is a call that leaves the argument to the callee's default. *)
Inductive Call : Type :=
| write_conf_json (conf : pyval) (filename : string)
| logging_dictConfig (conf : pyval)
| Bus_init (b : BusObject)
| Bus_connect (b : BusObject)
| Bus_disconnect (b : BusObject) (timeout : option Z)
| Exposer_restart_call (options : gmap string pyval)
| Exposer_shutdown_call
| EventLoop_stop
| log_warning_signal (signum : Z).

(** The attributes of a [Nyuki] instance, the number of bus objects
    constructed so far, and the calls made on the collaborators, oldest
    first. *)
Record Nyuki : Type := mk_Nyuki {
  config_filename : string;
  _config : pyval;
  _bus : BusObject;
  _exposer : Exposer;
  constructed : nat;
  calls : list Call
}.

Definition set_config (c : pyval) (self : Nyuki) : Nyuki :=
  {| config_filename := config_filename self; _config := c;
     _bus := _bus self; _exposer := _exposer self;
     constructed := constructed self; calls := calls self |}.

Definition set_bus (b : BusObject) (self : Nyuki) : Nyuki :=
  {| config_filename := config_filename self; _config := _config self;
     _bus := b; _exposer := _exposer self;
     constructed := constructed self; calls := calls self |}.

Definition set_exposer (e : Exposer) (self : Nyuki) : Nyuki :=
  {| config_filename := config_filename self; _config := _config self;
     _bus := _bus self; _exposer := e;
     constructed := constructed self; calls := calls self |}.

Definition set_constructed (n : nat) (self : Nyuki) : Nyuki :=
  {| config_filename := config_filename self; _config := _config self;
     _bus := _bus self; _exposer := _exposer self;
     constructed := n; calls := calls self |}.

Definition set_calls (l : list Call) (self : Nyuki) : Nyuki :=
  {| config_filename := config_filename self; _config := _config self;
     _bus := _bus self; _exposer := _exposer self;
     constructed := constructed self; calls := l |}.

(** Record a call on a collaborator that completes. *)
Definition call (c : Call) : M Nyuki unit :=
  modify (fun self => set_calls (calls self ++ [c]) self).

(** A call on a collaborator that may fail: the call is made, and it either
    returns or raises the given exception. *)
Definition attempt (c : Call) (outcome : option exn) : M Nyuki unit :=
  (call c ;;
   match outcome with
   | Some e => raise e
   | None => ret tt
   end)%py.

(** What the calls made by [reload] yield when nothing at hand tells:
    [logging.config.dictConfig] of the standard library, which rejects a
    configuration it cannot use, and the constructor and [connect] of the
    bus and [restart] of the Exposer, which are not part of the sources at
    hand.  For each, [None] says that the call with these arguments
    returns, [Some e] that it raises [e]. *)
Record Collaborators : Type := mk_Collaborators {
  dictConfig_outcome : pyval -> option exn;
  Bus_outcome : gmap string pyval -> option exn;
  connect_outcome : BusObject -> option exn;
  restart_outcome : gmap string pyval -> option exn
}.

(** [self._exposer.shutdown()] *)
Definition exposer_shutdown : M Nyuki unit :=
  (modify (fun self => set_exposer (Exposer_shutdown (_exposer self)) self) ;;
   call Exposer_shutdown_call)%py.

(** Stop the nyuki.

    Modelled from the spec: [Exposer.shutdown], [Bus.disconnect] and the
    stop of the event loop are not part of the sources at hand.  Shutdown
    returns once the pending requests are done, disconnection waits up to
    its timeout and then forces closure, so each of these calls
    completes. *)
Definition stop (timeout : Z) : M Nyuki unit :=
  (exposer_shutdown ;;
   self <- get ;;
   call (Bus_disconnect (_bus self) (Some timeout)) ;;
   call EventLoop_stop)%py.

(** The default of [stop]'s [timeout] parameter. *)
Definition stop_default_timeout : Z := 5.

(** Signal handler: gracefully stop the nyuki. *)
Definition abort (signum : Z) : M Nyuki unit :=
  (call (log_warning_signal signum) ;;
   stop stop_default_timeout)%py.

(** Save the current configuration dict to its JSON file.

    Modelled from the spec: [write_conf_json] is not part of the sources at
    hand; the configuration is persisted to durable storage on explicit
    save, so the call completes. *)
Definition save_config : M Nyuki unit :=
  (self <- get ;;
   call (write_conf_json (_config self) (config_filename self)))%py.

Section Reloading.
Variable env : Collaborators.

(** [Bus(loop=..., event_manager=..., **kw)].  The call itself raises
    [TypeError] when [kw] names [loop] or [event_manager], which are passed
    already; otherwise the constructor runs, and a new object results when
    it returns. *)
Definition Bus_new (kw : gmap string pyval) : M Nyuki BusObject :=
  if dict_contains "loop" kw || dict_contains "event_manager" kw
  then raise (TypeError "got multiple values for keyword argument")
  else
    match Bus_outcome env kw with
    | Some e => raise e
    | None =>
        (self <- get ;;
         let b := {| oid := constructed self; kwargs := kw |} in
         modify (set_constructed (S (constructed self))) ;;
         call (Bus_init b) ;;
         ret b)%py
    end.

(** [self._exposer.restart] with keyword options.  The Exposer is rebuilt
    when the call returns. *)
Definition exposer_restart (options : gmap string pyval) : M Nyuki unit :=
  (attempt (Exposer_restart_call options) (restart_outcome env options) ;;
   modify (fun self => set_exposer (Exposer_restart options (_exposer self)) self))%py.

(** Returns a new Bus object attribute. *)
Definition _make_bus : M Nyuki BusObject :=
  (self <- get ;;
   bus_conf <- lift (py_getitem (_config self) "bus") ;;
   kw <- lift (py_kwargs bus_conf) ;;
   Bus_new kw)%py.

(** [reload], as the base class defines it.  The disconnection of the bus
    completes, as in [stop]. *)
Definition reload : M Nyuki unit :=
  (save_config ;;
   self <- get ;;
   call (Bus_disconnect (_bus self) None) ;;
   log_conf <- lift (py_getitem (_config self) "log") ;;
   attempt (logging_dictConfig log_conf) (dictConfig_outcome env log_conf) ;;
   b <- _make_bus ;;
   modify (set_bus b) ;;
   self <- get ;;
   attempt (Bus_connect (_bus self)) (connect_outcome env (_bus self)) ;;
   api_conf <- lift (py_getitem (_config self) "api") ;;
   options <- lift (py_kwargs api_conf) ;;
   exposer_restart options)%py.
End Reloading.

Section Configuration.
(** [nyuki.config.merge_configs], which is not part of the sources at
    hand: the merged configuration, or the exception it raises. *)
Variable merge_configs : pyval -> list pyval -> result pyval.
(** [self.reload]: subclasses may override the method. *)
Variable reload_method : M Nyuki unit.

(** Update the current configuration with the given list of dicts. *)
Definition update_config (new_confs : list pyval) : M Nyuki unit :=
  (self <- get ;;
   merged <- lift (merge_configs (_config self) new_confs) ;;
   modify (set_config merged))%py.

(** [Configuration.get] *)
Definition Configuration_get (request : pyval) : M Nyuki Response :=
  (self <- get ;;
   ret (Response_of (_config self)))%py.

(** [Configuration.patch].  The [except] clause returns from the method;
    the final [return] is reached through the [else] clause only. *)
Definition Configuration_patch (request : pyval) : M Nyuki Response :=
  try_except_else (update_config [request]) is_ValidationError
    (fun error =>
       ret {| body := PDict {[ "error" := PStr (message_of error) ]};
              status := 400 |})
    (fun _ =>
       (reload_method ;;
        self <- get ;;
        ret (Response_of (_config self)))%py).
End Configuration.

End Agent.

(* ===================================================================== *)
(** ** examples/sample.py *)
(* ===================================================================== *)

Module Sample.
Import Capabilities.

(** A [Sample] instance: the inherited agent and the message store. *)
Record Sample : Type := mk_Sample {
  nyuki : Agent.Nyuki;
  messages : gmap string pyval
}.

Definition set_messages (m : gmap string pyval) (self : Sample) : Sample :=
  {| nyuki := nyuki self; messages := m |}.

(** The store built by [__init__]. *)
Definition initial_messages : gmap string pyval :=
  <["1" := PStr "message 1"]> (<["2" := PStr "message 2"]> ∅).

(** [Messages.get] *)
Definition Messages_get (request : pyval) : M Sample Response :=
  (self <- get ;;
   ret (Response_of (PDict (messages self))))%py.

(** [Messages.post], for a request whose body is a JSON object:
    [dict.update] with a mapping stores each of its entries, replacing
    the entries that have the same key. *)
Definition Messages_post (request : gmap string pyval) : M Sample Response :=
  (modify (fun self => set_messages (request ∪ messages self) self) ;;
   self <- get ;;
   ret (Response_of (PDict (messages self))))%py.

(** [Message.get] *)
Definition Message_get (request : pyval) (mid : string) : M Sample Response :=
  (self <- get ;;
   if negb (dict_contains mid (messages self))
   then ret {| status := 404;
               body := PDict {[ "message" := PStr "message does not exists" ]} |}
   else
     m <- lift (dict_getitem (messages self) mid) ;;
     ret (Response_of (PDict {[ "message" := m ]})))%py.

(** [self.messages[mid] = request['message']]: the right-hand side is
    evaluated first. *)
Definition store_message (request : pyval) (mid : string) : M Sample unit :=
  (m <- lift (py_getitem request "message") ;;
   modify (fun self => set_messages (<[mid := m]> (messages self)) self))%py.

(** [Message.patch].  The [except] clause returns from the method; the
    final [return] is reached when the [try] block raises nothing. *)
Definition Message_patch (request : pyval) (mid : string) : M Sample Response :=
  try_except_else (store_message request mid) is_KeyError
    (fun _ =>
       ret {| status := 400;
              body := PDict {[ "message" := PStr "missing message" ]} |})
    (fun _ =>
       (self <- get ;;
        m <- lift (dict_getitem (messages self) mid) ;;
        ret {| status := 200; body := PDict {[ "message" := m ]} |})%py).

(** The endpoint of the [Message] resource: [/message/{mid:\d+}]. *)
Definition Message_endpoint : endpoint := Numeric "/message/" "mid".

(** The endpoint of the [Messages] resource. *)
Definition Messages_endpoint : endpoint := Static "/message".

(** Bind the path parameter [mid] of a matched route to the handler's
    argument of that name. *)
Definition with_mid {S R} (h : pyval -> string -> M S R)
    : pyval -> list (string * string) -> M S R :=
  fun request params =>
    match params with
    | [(name, mid)] =>
        if String.eqb name "mid" then h request mid
        else raise (TypeError "arguments do not fit the handler")
    | _ => raise (TypeError "arguments do not fit the handler")
    end.

(** The routes of the two resources of the sample, for given handlers. *)
Definition routes {S R}
    (messages_get messages_post : pyval -> M S R)
    (message_get message_patch : pyval -> string -> M S R)
    : list (Route S R) :=
  [ mk_Route Api.GET Messages_endpoint (fun request _ => messages_get request);
    mk_Route Api.POST Messages_endpoint (fun request _ => messages_post request);
    mk_Route Api.GET Message_endpoint (with_mid message_get);
    mk_Route Api.PATCH Message_endpoint (with_mid message_patch) ].

End Sample.

(* ===================================================================== *)
(** ** nyuki/api.py: the [Api] class *)
(* ===================================================================== *)

Module HttpServer.

(** The object returned by [app.make_handler(..., debug=d)]. *)
Record Handler : Type := mk_Handler {
  handler_debug : pyval
}.

(** The object returned by [loop.create_server(handler, host=h, port=p)]. *)
Record Server : Type := mk_Server {
  server_handler : Handler;
  server_host : pyval;
  server_port : pyval
}.

(** The calls an [Api] object makes on the HTTP library, the event loop and
    the logger. *)
Inductive Call : Type :=
| log_info_starting (host port : pyval)
| make_handler (debug : pyval)
| create_server (h : Handler) (host port : pyval)
| Server_close (s : Server)
| finish_connections (h : Handler)
| wait_closed (s : Server)
| log_info_stopped.

(** The attributes of an [Api] instance and the calls made so far, oldest
    first. *)
Record Api : Type := mk_Api {
  _server : option Server;
  _handler : option Handler;
  _debug : pyval;
  calls : list Call
}.

(** How a method of [Api] ends: it returns, or an attribute is looked up on
    [None] and [AttributeError] is raised. *)
Inductive outcome : Type :=
| Done
| AttributeError_on_None (attribute : string).

(** [Api(loop, debug=debug)]: the argument is stored as it is. *)
Definition Api_init (debug : pyval) : Api :=
  {| _server := None; _handler := None; _debug := debug; calls := [] |}.

(** The default of the [debug] parameter. *)
Definition Api_init_default : Api := Api_init (PBool false).

(** The [debug] property. *)
Definition debug (self : Api) : pyval := _debug self.

(** The setter of the [debug] property: [self._debug = bool(value)]. *)
Definition set_debug (value : pyval) (self : Api) : Api :=
  {| _server := _server self; _handler := _handler self;
     _debug := PBool (py_truthy value); calls := calls self |}.


(** Gracefully destroy the HTTP server by closing all pending
    connections. *)
Definition destroy (self : Api) : outcome * Api :=
  match _server self with
  | None => (AttributeError_on_None "close", self)
  | Some s =>
      let closed :=
        {| _server := _server self; _handler := _handler self;
           _debug := _debug self; calls := calls self ++ [Server_close s] |} in
      match _handler self with
      | None => (AttributeError_on_None "finish_connections", closed)
      | Some h =>
          (Done,
           {| _server := _server self; _handler := _handler self;
              _debug := _debug self;
              calls := calls closed ++
                [finish_connections h; wait_closed s; log_info_stopped] |})
      end
  end.

End HttpServer.

(* ===================================================================== *)
(** ** Sample inputs *)
(* ===================================================================== *)

Module Fixtures.
Import Capabilities.

(** A rendering of exception objects that is good enough for examples. *)
Definition show_exn (e : exn) : string :=
  match e with
  | HTTPNotFound => "Not Found"
  | KeyError k => k
  | TypeError m => m
  | ValidationError m => m
  | ValueError m => m
  | ClientOSError => "ClientOSError()"
  | RuntimeError m => m
  | SystemExit _ => "SystemExit"
  end.

Definition a_request : Api.Request :=
  {| Api.method := Api.GET; Api.path := "/message/7";
     Api.match_info := [("mid", "7")]; Api.json_body := PNone |}.

(** A loop on which no exception handler has been set. *)
Definition quiet_loop : Api.Loop unit := Api.mk_Loop false [] tt.

(** A loop with an exception handler. *)
Definition watched_loop : Api.Loop unit := Api.mk_Loop true [] tt.

(** A handler with a programming error. *)
Definition failing_handler : Api.handler_t unit :=
  fun _ _ => raise (RuntimeError "boom").

(** A handler without a [return] statement. *)
Definition silent_handler : Api.handler_t unit :=
  fun _ _ => ret (Api.Other_value PNone).

(** A handler that builds its own response. *)
Definition teapot_handler : Api.handler_t unit :=
  fun _ _ => ret (Api.Response_object {| Api.status := 418; Api.body := Some "{}" |}).

Definition a_log_conf : pyval := PDict (<["version" := PInt 1]> ∅).

Definition a_bus_conf : gmap string pyval :=
  <["jid" := PStr "login@localhost"]> (<["password" := PStr "secret"]> ∅).

Definition an_api_conf : gmap string pyval :=
  <["host" := PStr "0.0.0.0"]> (<["port" := PInt 8080]> ∅).

Definition a_config : gmap string pyval :=
  <["log" := a_log_conf]>
  (<["bus" := PDict a_bus_conf]>
  (<["api" := PDict an_api_conf]>
  (<["port" := PInt 8080]> ∅))).

(** A stand-in for [logging.config.dictConfig] that makes its first checks:
    the configuration is a dictionary that gives the version 1. *)
Definition a_dictConfig (conf : pyval) : option exn :=
  match conf with
  | PDict d =>
      match d !! "version" with
      | None => Some (ValueError "dictionary doesn't specify a version")
      | Some (PInt 1) => None
      | Some _ => Some (ValueError "Unsupported version")
      end
  | _ => Some (TypeError "configuration is not a dictionary")
  end.

(** A stand-in for the constructor of the bus, which wants an identity and
    a password. *)
Definition a_Bus (kw : gmap string pyval) : option exn :=
  if dict_contains "jid" kw && dict_contains "password" kw
  then None
  else Some (TypeError "missing required argument").

(** Collaborators of which [connect] and [restart] return. *)
Definition collaborators : Agent.Collaborators :=
  {| Agent.dictConfig_outcome := a_dictConfig;
     Agent.Bus_outcome := a_Bus;
     Agent.connect_outcome := fun _ => None;
     Agent.restart_outcome := fun _ => None |}.

Definition a_capability : Capability :=
  {| name := "Configuration"; cap_endpoint := Static "/config";
     version := Some "v1"; methods := [Api.GET; Api.PATCH] |}.

Definition a_nyuki : Agent.Nyuki :=
  {| Agent.config_filename := "conf.json";
     Agent._config := PDict a_config;
     Agent._bus := {| Agent.oid := 0; Agent.kwargs := a_bus_conf |};
     Agent._exposer := {| capabilities := [a_capability];
                          listening := Some (<["port" := PInt 5558]> ∅) |};
     Agent.constructed := 1;
     Agent.calls := [] |}.

(** A stand-in for [merge_configs] that follows the schema of the sample:
    the patch is a mapping whose [port], if any, is an integer; the keys of
    the patch replace those of the configuration. *)
Definition a_merge (conf : pyval) (new_confs : list pyval) : result pyval :=
  match conf, new_confs with
  | PDict c, [PDict patch] =>
      match patch !! "port" with
      | Some (PInt _) | None => Return (PDict (patch ∪ c))
      | Some _ => Raise (ValidationError "port is not of type 'integer'")
      end
  | _, _ => Raise (TypeError "configurations are mappings")
  end.

Definition a_sample : Sample.Sample :=
  {| Sample.nyuki := a_nyuki; Sample.messages := Sample.initial_messages |}.

Definition a_wire : Bus.Wire := {| Bus.sent := []; Bus.http_calls := [] |}.

(** An HTTP client for which every connection is refused. *)
Definition refusing_http (method url data : string) : result Bus.BusResponse :=
  Raise ClientOSError.

(** A serializer that only knows the payloads of the examples. *)
Definition a_dumps (v : pyval) : string :=
  match v with
  | PDict _ => "{...}"
  | _ => "null"
  end.

End Fixtures.

(* ===================================================================== *)
(** ** Properties of the middleware *)
(* ===================================================================== *)

Section MiddlewareProperties.
Import Api.
Context {U : Type}.
Variable str : exn -> string.
Variable capa_handler : handler_t U.

Lemma call_capability_returns request l c l' :
  capa_handler request (match_info request) l = (Return c, l') ->
  call_capability str capa_handler request l = (Return c, l').
Proof.
  intros H. unfold call_capability, try_except. now rewrite H.
Qed.

Lemma call_capability_raises request l e l' :
  capa_handler request (match_info request) l = (Raise e, l') ->
  call_capability str capa_handler request l =
    if is_HTTPNotFound e then (Raise e, l')
    else if is_Exception e
         then (Raise e,
               if _exception_handler l'
               then mk_Loop (_exception_handler l')
                      (reported l' ++
                         [{| ctx_message := str e; ctx_exception := e |}])
                      (user l')
               else l')
         else (Raise e, l').
Proof.
  intros H. unfold call_capability, try_except. rewrite H.
  destruct (is_HTTPNotFound e) eqn:Hnf; simpl; [reflexivity|].
  destruct (is_Exception e) eqn:Hex; simpl; [|reflexivity].
  unfold report_and_reraise, call_exception_handler, bind, get, modify, raise.
  destruct (_exception_handler l') eqn:Hh; rewrite ?Hh; reflexivity.
Qed.

Lemma mw_capability_of_call request l :
  mw_capability str capa_handler request l =
    match call_capability str capa_handler request l with
    | (Return (Response_object r), l') => (Return r, l')
    | (Return (Other_value _), l') => (Return web_Response_default, l')
    | (Raise e, l') => (Raise e, l')
    end.
Proof.
  unfold mw_capability, bind.
  destruct (call_capability str capa_handler request l) as [[c|e] l'];
    [|reflexivity].
  destruct c as [r|v]; simpl; [reflexivity|].
  destruct (py_truthy v); reflexivity.
Qed.
End MiddlewareProperties.

(** C8.  When the capability handler returns, the middleware returns too:
    a [web.Response] object is forwarded as it is, and for every other
    value, [None] included, the reply is the empty response of status 200.
    The state left by the handler is not touched. *)
Theorem mw_capability_forwards_or_synthesizes
    {U : Type} (str : exn -> string) (capa_handler : Api.handler_t U)
    (request : Api.Request) (l l' : Api.Loop U) (c : Api.capa_result) :
  capa_handler request (Api.match_info request) l = (Return c, l') ->
  (forall r, c = Api.Response_object r ->
     Api.mw_capability str capa_handler request l = (Return r, l')) /\
  ((forall r, c <> Api.Response_object r) ->
     Api.mw_capability str capa_handler request l =
       (Return {| Api.status := 200; Api.body := None |}, l')).
Proof.
  intros H.
  rewrite mw_capability_of_call, (call_capability_returns str _ _ _ _ _ H).
  split.
  - intros r ->. reflexivity.
  - intros Hother. destruct c as [r|v]; [|reflexivity].
    now destruct (Hother r).
Qed.

Lemma mw_capability_forwards_or_synthesizes_witness :
  Api.mw_capability Fixtures.show_exn Fixtures.teapot_handler
    Fixtures.a_request Fixtures.quiet_loop =
    (Return {| Api.status := 418; Api.body := Some "{}" |}, Fixtures.quiet_loop) /\
  Api.mw_capability Fixtures.show_exn Fixtures.silent_handler
    Fixtures.a_request Fixtures.quiet_loop =
    (Return {| Api.status := 200; Api.body := None |}, Fixtures.quiet_loop).
Proof.
  split.
  - apply (proj1 (mw_capability_forwards_or_synthesizes Fixtures.show_exn
             Fixtures.teapot_handler Fixtures.a_request Fixtures.quiet_loop
             Fixtures.quiet_loop _ eq_refl) _ eq_refl).
  - apply (proj2 (mw_capability_forwards_or_synthesizes Fixtures.show_exn
             Fixtures.silent_handler Fixtures.a_request Fixtures.quiet_loop
             Fixtures.quiet_loop (Api.Other_value PNone) eq_refl)).
    intros r Hr. discriminate Hr.
Defined.

(** C2, as the code has it.  When the capability handler raises, the
    middleware raises the same exception and builds no response.  "Not
    found" goes through with nothing reported.  Any other instance of
    [Exception] is first reported to the exception handler of the loop, if
    one has been set, with its text and the exception object; without a
    handler nothing is reported.  An exception that is not an instance of
    [Exception] is not caught at all. *)
Theorem mw_capability_reports_and_reraises
    {U : Type} (str : exn -> string) (capa_handler : Api.handler_t U)
    (request : Api.Request) (l l' : Api.Loop U) (e : exn) :
  capa_handler request (Api.match_info request) l = (Raise e, l') ->
  (is_HTTPNotFound e = true ->
     Api.mw_capability str capa_handler request l = (Raise e, l')) /\
  (is_HTTPNotFound e = false -> is_Exception e = true ->
     Api._exception_handler l' = true ->
     Api.mw_capability str capa_handler request l =
       (Raise e,
        Api.mk_Loop true
          (Api.reported l' ++
             [{| Api.ctx_message := str e; Api.ctx_exception := e |}])
          (Api.user l'))) /\
  (is_HTTPNotFound e = false -> is_Exception e = true ->
     Api._exception_handler l' = false ->
     Api.mw_capability str capa_handler request l = (Raise e, l')) /\
  (is_Exception e = false ->
     Api.mw_capability str capa_handler request l = (Raise e, l')).
Proof.
  intros H.
  rewrite mw_capability_of_call, (call_capability_raises str _ _ _ _ _ H).
  repeat split.
  - intros ->. reflexivity.
  - intros -> -> ->. reflexivity.
  - intros -> -> ->. reflexivity.
  - intros Hex. destruct e; try discriminate Hex. reflexivity.
Qed.

Lemma mw_capability_reports_and_reraises_witness :
  Api.mw_capability Fixtures.show_exn Fixtures.failing_handler
    Fixtures.a_request Fixtures.watched_loop =
    (Raise (RuntimeError "boom"),
     Api.mk_Loop true
       [{| Api.ctx_message := "boom";
           Api.ctx_exception := RuntimeError "boom" |}] tt).
Proof.
  apply (proj1 (proj2 (mw_capability_reports_and_reraises Fixtures.show_exn
           Fixtures.failing_handler Fixtures.a_request Fixtures.watched_loop
           Fixtures.watched_loop (RuntimeError "boom") eq_refl))
           eq_refl eq_refl eq_refl).
Defined.

(** C2, as the specification words it, fails.  A handler raises a
    [RuntimeError] on a loop without exception handler: the middleware
    raises the error again, so there is no response, and nothing has been
    reported. *)
Lemma mw_capability_error_not_converted :
  Api.mw_capability Fixtures.show_exn Fixtures.failing_handler
    Fixtures.a_request Fixtures.quiet_loop =
    (Raise (RuntimeError "boom"), Fixtures.quiet_loop) /\
  ~ (exists response l,
       Api.mw_capability Fixtures.show_exn Fixtures.failing_handler
         Fixtures.a_request Fixtures.quiet_loop = (Return response, l) /\
       Api.reported l <> []).
Proof.
  split; [reflexivity|].
  intros (response & l & Hrun & _). vm_compute in Hrun. discriminate Hrun.
Qed.

(* ===================================================================== *)
(** ** Properties of the agent *)
(* ===================================================================== *)

(** Unfold the plumbing of method bodies. *)
Ltac py_unfold :=
  unfold try_except_else, try_except, bind, get, modify, ret, raise, lift.

Lemma calls_set_calls l self : Agent.calls (Agent.set_calls l self) = l.
Proof. reflexivity. Qed.

Lemma stop_runs timeout self :
  Agent.stop timeout self =
    (Return tt,
     Agent.set_calls
       (Agent.calls self ++
          [Agent.Exposer_shutdown_call;
           Agent.Bus_disconnect (Agent._bus self) (Some timeout);
           Agent.EventLoop_stop])
       (Agent.set_exposer
          (Capabilities.Exposer_shutdown (Agent._exposer self)) self)).
Proof.
  unfold Agent.stop, Agent.exposer_shutdown, Agent.call. py_unfold.
  unfold Agent.set_calls, Agent.set_exposer. simpl.
  now rewrite <- !app_assoc.
Qed.

(** In a list that starts with the shutdown of the Exposer, whatever comes
    before a later element contains that shutdown. *)
Lemma shutdown_comes_first (rest pre post : list Agent.Call) (c : Agent.Call) :
  Agent.Exposer_shutdown_call :: rest = pre ++ c :: post ->
  c <> Agent.Exposer_shutdown_call ->
  In Agent.Exposer_shutdown_call pre.
Proof.
  intros Heq Hc. destruct pre as [|x pre].
  - simpl in Heq. injection Heq as Hx _. now destruct Hc.
  - simpl in Heq. injection Heq as Hx _. left. now symmetry.
Qed.

(** C3.  [stop(timeout)] returns after exactly three calls, in this order:
    the shutdown of the Exposer, the disconnection of the bus with the given
    timeout, the stop of the event loop.  Whatever precedes the
    disconnection of the bus among them contains the shutdown of the
    Exposer. *)
Theorem stop_three_steps_in_order (timeout : Z) (self : Agent.Nyuki) :
  exists self',
    Agent.stop timeout self = (Return tt, self') /\
    Agent.calls self' =
      Agent.calls self ++
        [Agent.Exposer_shutdown_call;
         Agent.Bus_disconnect (Agent._bus self) (Some timeout);
         Agent.EventLoop_stop] /\
    (forall pre post b t,
       Agent.calls self' =
         Agent.calls self ++ pre ++ Agent.Bus_disconnect b t :: post ->
       In Agent.Exposer_shutdown_call pre).
Proof.
  eexists. split; [apply stop_runs|]. split; [reflexivity|].
  intros pre post b t Heq. rewrite calls_set_calls in Heq.
  apply app_inv_head in Heq.
  eapply shutdown_comes_first; [exact Heq | discriminate].
Qed.

Lemma stop_three_steps_in_order_witness :
  exists self',
    Agent.stop 5 Fixtures.a_nyuki = (Return tt, self') /\
    Agent.calls self' =
      [Agent.Exposer_shutdown_call;
       Agent.Bus_disconnect (Agent._bus Fixtures.a_nyuki) (Some 5%Z);
       Agent.EventLoop_stop] /\
    In Agent.Exposer_shutdown_call [Agent.Exposer_shutdown_call].
Proof.
  destruct (stop_three_steps_in_order 5 Fixtures.a_nyuki)
    as (self' & Hrun & Hcalls & Horder).
  exists self'. split; [exact Hrun|]. split; [exact Hcalls|].
  apply (Horder [Agent.Exposer_shutdown_call] [Agent.EventLoop_stop]
           (Agent._bus Fixtures.a_nyuki) (Some 5%Z)).
  exact Hcalls.
Defined.

(** [reload], step by step: each subscript, keyword expansion or call that
    fails ends the method with the calls made up to there. *)
Lemma reload_unfold (env : Agent.Collaborators) (self : Agent.Nyuki) :
  let saved :=
    [Agent.write_conf_json (Agent._config self) (Agent.config_filename self);
     Agent.Bus_disconnect (Agent._bus self) None] in
  Agent.reload env self =
    match py_getitem (Agent._config self) "log" with
    | Raise e => (Raise e, Agent.set_calls (Agent.calls self ++ saved) self)
    | Return log_conf =>
        let logged := saved ++ [Agent.logging_dictConfig log_conf] in
        let stopped := Agent.set_calls (Agent.calls self ++ logged) self in
        match Agent.dictConfig_outcome env log_conf with
        | Some e => (Raise e, stopped)
        | None =>
        match py_getitem (Agent._config self) "bus" with
        | Raise e => (Raise e, stopped)
        | Return bus_conf =>
        match py_kwargs bus_conf with
        | Raise e => (Raise e, stopped)
        | Return kw =>
        if dict_contains "loop" kw || dict_contains "event_manager" kw
        then (Raise (TypeError "got multiple values for keyword argument"),
              stopped)
        else
        match Agent.Bus_outcome env kw with
        | Some e => (Raise e, stopped)
        | None =>
            let b := {| Agent.oid := Agent.constructed self;
                        Agent.kwargs := kw |} in
            let connected := logged ++ [Agent.Bus_init b; Agent.Bus_connect b] in
            let with_bus :=
              Agent.set_bus b
                (Agent.set_constructed (S (Agent.constructed self)) self) in
            match Agent.connect_outcome env b with
            | Some e =>
                (Raise e, Agent.set_calls (Agent.calls self ++ connected) with_bus)
            | None =>
            match py_getitem (Agent._config self) "api" with
            | Raise e =>
                (Raise e, Agent.set_calls (Agent.calls self ++ connected) with_bus)
            | Return api_conf =>
            match py_kwargs api_conf with
            | Raise e =>
                (Raise e, Agent.set_calls (Agent.calls self ++ connected) with_bus)
            | Return options =>
                let restarted := connected ++ [Agent.Exposer_restart_call options] in
                match Agent.restart_outcome env options with
                | Some e =>
                    (Raise e,
                     Agent.set_calls (Agent.calls self ++ restarted) with_bus)
                | None =>
                    (Return tt,
                     Agent.set_calls (Agent.calls self ++ restarted)
                       (Agent.set_exposer
                          (Capabilities.Exposer_restart options
                             (Agent._exposer self)) with_bus))
                end
            end
            end
            end
        end
        end
        end
        end
    end.
Proof.
  unfold Agent.reload, Agent.save_config, Agent._make_bus, Agent.Bus_new,
    Agent.exposer_restart, Agent.attempt, Agent.call.
  py_unfold.
  unfold Agent.set_calls, Agent.set_exposer, Agent.set_bus,
    Agent.set_constructed. simpl.
  destruct (py_getitem (Agent._config self) "log") as [lc|e]; simpl;
    [|now rewrite <- !app_assoc].
  destruct (Agent.dictConfig_outcome env lc) as [e|]; simpl;
    [now rewrite <- !app_assoc|].
  destruct (py_getitem (Agent._config self) "bus") as [bc|e]; simpl;
    [|now rewrite <- !app_assoc].
  destruct (py_kwargs bc) as [kw|e]; simpl; [|now rewrite <- !app_assoc].
  destruct (dict_contains "loop" kw || dict_contains "event_manager" kw); simpl;
    [now rewrite <- !app_assoc|].
  destruct (Agent.Bus_outcome env kw) as [e|]; simpl;
    [now rewrite <- !app_assoc|].
  destruct (Agent.connect_outcome env _) as [e|]; simpl;
    [now rewrite <- !app_assoc|].
  destruct (py_getitem (Agent._config self) "api") as [ac|e]; simpl;
    [|now rewrite <- !app_assoc].
  destruct (py_kwargs ac) as [opts|e]; simpl; [|now rewrite <- !app_assoc].
  destruct (Agent.restart_outcome env opts) as [e|]; simpl;
    now rewrite <- !app_assoc.
Qed.

Lemma dict_contains_false (k : string) (d : gmap string pyval) :
  d !! k = None -> dict_contains k d = false.
Proof. intros H. unfold dict_contains. now rewrite H. Qed.

Lemma dict_contains_false_inv (k : string) (d : gmap string pyval) :
  dict_contains k d = false -> d !! k = None.
Proof. unfold dict_contains. now destruct (d !! k). Qed.

(** The calls of one [reload] that goes through. *)
Lemma reload_runs (env : Agent.Collaborators) (self : Agent.Nyuki)
    (cfg : gmap string pyval)
    (log_conf : pyval) (bus_kw api_kw : gmap string pyval) :
  Agent._config self = PDict cfg ->
  cfg !! "log" = Some log_conf ->
  cfg !! "bus" = Some (PDict bus_kw) ->
  cfg !! "api" = Some (PDict api_kw) ->
  bus_kw !! "loop" = None ->
  bus_kw !! "event_manager" = None ->
  let new_bus := {| Agent.oid := Agent.constructed self; Agent.kwargs := bus_kw |} in
  Agent.dictConfig_outcome env log_conf = None ->
  Agent.Bus_outcome env bus_kw = None ->
  Agent.connect_outcome env new_bus = None ->
  Agent.restart_outcome env api_kw = None ->
  Agent.reload env self =
    (Return tt,
     {| Agent.config_filename := Agent.config_filename self;
        Agent._config := Agent._config self;
        Agent._bus := new_bus;
        Agent._exposer :=
          Capabilities.Exposer_restart api_kw (Agent._exposer self);
        Agent.constructed := S (Agent.constructed self);
        Agent.calls :=
          Agent.calls self ++
            [Agent.write_conf_json (Agent._config self) (Agent.config_filename self);
             Agent.Bus_disconnect (Agent._bus self) None;
             Agent.logging_dictConfig log_conf;
             Agent.Bus_init new_bus;
             Agent.Bus_connect new_bus;
             Agent.Exposer_restart_call api_kw] |}).
Proof.
  intros Hcfg Hlog Hbus Hapi Hloop Hem new_bus Hdict Hctor Hconn Hrest.
  rewrite reload_unfold. cbv zeta.
  rewrite Hcfg. simpl. unfold dict_getitem. rewrite Hlog, Hdict, Hbus. simpl.
  rewrite (dict_contains_false _ _ Hloop), (dict_contains_false _ _ Hem). simpl.
  rewrite Hctor. fold new_bus. rewrite Hconn, Hapi. simpl. rewrite Hrest.
  unfold Agent.set_calls, Agent.set_exposer, Agent.set_bus,
    Agent.set_constructed. simpl. now rewrite Hcfg.
Qed.

(** [reload] never assigns the configuration, whatever its outcome. *)
Lemma reload_keeps_config (env : Agent.Collaborators)
    (self self' : Agent.Nyuki) (r : result unit) :
  Agent.reload env self = (r, self') -> Agent._config self' = Agent._config self.
Proof.
  rewrite reload_unfold. cbv zeta.
  repeat match goal with
         | |- context [match ?x with _ => _ end] => destruct x
         | |- context [if ?x then _ else _] => destruct x
         end;
    intros [= _ <-]; reflexivity.
Qed.

(** C4, as the code has it.  [reload] goes through when the configuration
    holds logging settings that [dictConfig] accepts, a mapping for the bus
    that names neither [loop] nor [event_manager] and from which a bus can
    be constructed and connected, and a mapping for the API with which the
    Exposer restarts.  It then returns after having, in this order, written
    the configuration to its file, disconnected the old bus, configured
    logging from the configuration, built a bus from the bus settings and
    connected it, and restarted the Exposer with the API settings.  The
    event loop is not stopped.  Afterwards the agent holds the new bus,
    which is not the old object, and the Exposer serves with the API
    settings (host and port among them) and has the capabilities it had
    before. *)
Theorem reload_reconfigures_without_stopping
    (env : Agent.Collaborators)
    (self : Agent.Nyuki) (cfg : gmap string pyval)
    (log_conf : pyval) (bus_kw api_kw : gmap string pyval) :
  Agent._config self = PDict cfg ->
  cfg !! "log" = Some log_conf ->
  cfg !! "bus" = Some (PDict bus_kw) ->
  cfg !! "api" = Some (PDict api_kw) ->
  bus_kw !! "loop" = None ->
  bus_kw !! "event_manager" = None ->
  let new_bus := {| Agent.oid := Agent.constructed self; Agent.kwargs := bus_kw |} in
  Agent.dictConfig_outcome env log_conf = None ->
  Agent.Bus_outcome env bus_kw = None ->
  Agent.connect_outcome env new_bus = None ->
  Agent.restart_outcome env api_kw = None ->
  exists self' new_calls,
    Agent.reload env self = (Return tt, self') /\
    Agent.calls self' = Agent.calls self ++ new_calls /\
    new_calls =
      [Agent.write_conf_json (PDict cfg) (Agent.config_filename self);
       Agent.Bus_disconnect (Agent._bus self) None;
       Agent.logging_dictConfig log_conf;
       Agent.Bus_init new_bus;
       Agent.Bus_connect new_bus;
       Agent.Exposer_restart_call api_kw] /\
    ~ In Agent.EventLoop_stop new_calls /\
    Agent._config self' = PDict cfg /\
    Agent._bus self' = new_bus /\
    (Agent.oid (Agent._bus self) < Agent.constructed self ->
       Agent._bus self' <> Agent._bus self) /\
    Capabilities.listening (Agent._exposer self') = Some api_kw /\
    (Capabilities.listening (Agent._exposer self') ≫= (fun o => o !! "host"))
      = api_kw !! "host" /\
    (Capabilities.listening (Agent._exposer self') ≫= (fun o => o !! "port"))
      = api_kw !! "port" /\
    Capabilities.capabilities (Agent._exposer self') =
      Capabilities.capabilities (Agent._exposer self).
Proof.
  intros Hcfg Hlog Hbus Hapi Hloop Hem new_bus Hdict Hctor Hconn Hrest.
  eexists. eexists.
  split; [apply (reload_runs env self cfg log_conf bus_kw api_kw); assumption|].
  simpl. rewrite Hcfg.
  split; [reflexivity|]. split; [reflexivity|].
  split.
  { intros Hin. simpl in Hin.
    repeat (destruct Hin as [Hin|Hin]; [discriminate Hin|]). exact Hin. }
  split; [reflexivity|]. split; [reflexivity|].
  split.
  { intros Hlt Heq. subst new_bus. rewrite <- Heq in Hlt. simpl in Hlt. lia. }
  repeat split; reflexivity.
Qed.

Lemma reload_reconfigures_without_stopping_witness :
  exists self',
    Agent.reload Fixtures.collaborators Fixtures.a_nyuki = (Return tt, self') /\
    Capabilities.listening (Agent._exposer self') ≫= (fun o => o !! "port")
      = Some (PInt 8080) /\
    Capabilities.capabilities (Agent._exposer self') = [Fixtures.a_capability] /\
    Agent._bus self' <> Agent._bus Fixtures.a_nyuki.
Proof.
  destruct (reload_reconfigures_without_stopping Fixtures.collaborators
              Fixtures.a_nyuki Fixtures.a_config Fixtures.a_log_conf
              Fixtures.a_bus_conf Fixtures.an_api_conf)
    as (self' & new_calls & Hrun & _ & _ & _ & _ & _ & Hfresh & _ & _ & Hport & Hcaps);
    try reflexivity.
  exists self'. split; [exact Hrun|]. split; [exact Hport|].
  split; [exact Hcaps|]. apply Hfresh. simpl. lia.
Defined.

(** C4, as the specification words it, fails: not every call to [reload]
    performs all the steps.  The agent holds a configuration whose logging
    settings are the empty mapping, which [dictConfig] rejects for want of a
    version.  [reload] writes that configuration, disconnects the bus, calls
    [dictConfig] and raises its [ValueError]: no bus is built or connected,
    the Exposer is not restarted, and the agent is left with the bus it has
    disconnected. *)
Lemma reload_stops_at_rejected_log_settings :
  let self :=
    Agent.set_config (PDict (<["log" := PDict ∅]> Fixtures.a_config))
      Fixtures.a_nyuki in
  exists self',
    Agent.reload Fixtures.collaborators self =
      (Raise (ValueError "dictionary doesn't specify a version"), self') /\
    Agent.calls self' =
      [Agent.write_conf_json (Agent._config self) "conf.json";
       Agent.Bus_disconnect (Agent._bus self) None;
       Agent.logging_dictConfig (PDict ∅)] /\
    Agent._bus self' = Agent._bus self /\
    Agent._exposer self' = Agent._exposer self /\
    ~ (exists self'', Agent.reload Fixtures.collaborators self = (Return tt, self'')).
Proof.
  intros self. eexists. split; [vm_compute; reflexivity|].
  split; [reflexivity|]. split; [reflexivity|]. split; [reflexivity|].
  intros (self'' & Hrun). vm_compute in Hrun. discriminate Hrun.
Qed.

Section ConfigurationProperties.
Variable merge_configs : pyval -> list pyval -> result pyval.
Variable reload_method : M Agent.Nyuki unit.

Lemma update_config_runs new_confs self :
  Agent.update_config merge_configs new_confs self =
    match merge_configs (Agent._config self) new_confs with
    | Return merged => (Return tt, Agent.set_config merged self)
    | Raise e => (Raise e, self)
    end.
Proof.
  unfold Agent.update_config. py_unfold.
  destruct (merge_configs (Agent._config self) new_confs); reflexivity.
Qed.

Lemma Configuration_patch_rejected request self message :
  merge_configs (Agent._config self) [request] = Raise (ValidationError message) ->
  Agent.Configuration_patch merge_configs reload_method request self =
    (Return {| Capabilities.body := PDict {[ "error" := PStr message ]};
               Capabilities.status := 400 |}, self).
Proof.
  intros H. unfold Agent.Configuration_patch, try_except_else.
  rewrite update_config_runs, H. reflexivity.
Qed.

Lemma Configuration_patch_accepted request self merged :
  merge_configs (Agent._config self) [request] = Return merged ->
  Agent.Configuration_patch merge_configs reload_method request self =
    match reload_method (Agent.set_config merged self) with
    | (Return _, self') =>
        (Return (Capabilities.Response_of (Agent._config self')), self')
    | (Raise e, self') => (Raise e, self')
    end.
Proof.
  intros H. unfold Agent.Configuration_patch, try_except_else.
  rewrite update_config_runs, H. py_unfold.
  destruct (reload_method (Agent.set_config merged self)) as [[[]|e] self'];
    reflexivity.
Qed.
End ConfigurationProperties.

(** C1.  A PATCH on [/config] whose payload is rejected with a validation
    error returns a response of status 400 that carries the message of the
    error, and leaves the agent as it was: same configuration, no call on
    any collaborator, and this whatever [reload] would do, so [reload] is
    not run.  When the payload is accepted, the merged configuration is
    assigned and [reload] is run on the agent that holds it; the handler
    ends in the state [reload] leaves, with its exception if it raises. *)
Theorem Configuration_patch_validates_then_reloads
    (merge_configs : pyval -> list pyval -> result pyval)
    (reload_method : M Agent.Nyuki unit)
    (request : pyval) (self : Agent.Nyuki) :
  (forall message,
     merge_configs (Agent._config self) [request] = Raise (ValidationError message) ->
     Agent.Configuration_patch merge_configs reload_method request self =
       (Return {| Capabilities.body := PDict {[ "error" := PStr message ]};
                  Capabilities.status := 400 |}, self)) /\
  (forall merged,
     merge_configs (Agent._config self) [request] = Return merged ->
     Agent._config (Agent.set_config merged self) = merged /\
     forall outcome self',
       reload_method (Agent.set_config merged self) = (outcome, self') ->
       exists response,
         Agent.Configuration_patch merge_configs reload_method request self =
           (response, self') /\
         (forall e, outcome = Raise e -> response = Raise e) /\
         (outcome = Return tt -> exists r, response = Return r)).
Proof.
  split.
  - intros message H. now apply Configuration_patch_rejected.
  - intros merged H. split; [reflexivity|].
    intros outcome self' Hreload.
    rewrite (Configuration_patch_accepted _ _ _ _ _ H), Hreload.
    destruct outcome as [[]|e].
    + eexists. split; [reflexivity|]. split; [discriminate|]. eauto.
    + eexists. split; [reflexivity|]. split; [|discriminate].
      now intros e' [= ->].
Qed.

Lemma Configuration_patch_validates_then_reloads_witness :
  Agent.Configuration_patch Fixtures.a_merge (Agent.reload Fixtures.collaborators)
    (PDict {[ "port" := PStr "eighty" ]}) Fixtures.a_nyuki =
    (Return {| Capabilities.body :=
                 PDict {[ "error" := PStr "port is not of type 'integer'" ]};
               Capabilities.status := 400 |}, Fixtures.a_nyuki) /\
  exists response self',
    (Agent.reload Fixtures.collaborators)
      (Agent.set_config (PDict ({[ "port" := PInt 81 ]} ∪ Fixtures.a_config))
         Fixtures.a_nyuki) = (Return tt, self') /\
    Agent.Configuration_patch Fixtures.a_merge (Agent.reload Fixtures.collaborators)
      (PDict {[ "port" := PInt 81 ]}) Fixtures.a_nyuki = (response, self').
Proof.
  split.
  - apply (proj1 (Configuration_patch_validates_then_reloads Fixtures.a_merge
             (Agent.reload Fixtures.collaborators) (PDict {[ "port" := PStr "eighty" ]}) Fixtures.a_nyuki)).
    reflexivity.
  - destruct (proj2 (Configuration_patch_validates_then_reloads Fixtures.a_merge
               (Agent.reload Fixtures.collaborators) (PDict {[ "port" := PInt 81 ]}) Fixtures.a_nyuki)
               (PDict ({[ "port" := PInt 81 ]} ∪ Fixtures.a_config)))
      as [_ Hrun]; [reflexivity|].
    destruct ((Agent.reload Fixtures.collaborators)
                (Agent.set_config
                   (PDict ({[ "port" := PInt 81 ]} ∪ Fixtures.a_config))
                   Fixtures.a_nyuki)) as [outcome self'] eqn:Hreload.
    destruct (Hrun outcome self' eq_refl) as (response & Hpatch & _ & _).
    vm_compute in Hreload. injection Hreload as <- <-.
    eexists. eexists. split; [reflexivity|]. exact Hpatch.
Defined.

(** C10.  When the payload of a PATCH on [/config] is accepted and [reload]
    returns, the response has status 200 and its body is the whole
    configuration held by the agent once [reload] is over.  With the
    [reload] of the base class, which does not assign the configuration,
    that body is the merged configuration itself. *)
Theorem Configuration_patch_returns_whole_config
    (merge_configs : pyval -> list pyval -> result pyval)
    (reload_method : M Agent.Nyuki unit)
    (request merged : pyval) (self self' : Agent.Nyuki) :
  merge_configs (Agent._config self) [request] = Return merged ->
  reload_method (Agent.set_config merged self) = (Return tt, self') ->
  Agent.Configuration_patch merge_configs reload_method request self =
    (Return {| Capabilities.body := Agent._config self';
               Capabilities.status := 200 |}, self') /\
  (forall env, reload_method = Agent.reload env ->
     Agent._config self' = merged).
Proof.
  intros Hmerge Hreload. split.
  - rewrite (Configuration_patch_accepted _ _ _ _ _ Hmerge), Hreload.
    reflexivity.
  - intros env ->. apply reload_keeps_config in Hreload. exact Hreload.
Qed.

Lemma Configuration_patch_returns_whole_config_witness :
  exists self',
    Agent.Configuration_patch Fixtures.a_merge (Agent.reload Fixtures.collaborators)
      (PDict {[ "port" := PInt 81 ]}) Fixtures.a_nyuki =
      (Return {| Capabilities.body :=
                   PDict ({[ "port" := PInt 81 ]} ∪ Fixtures.a_config);
                 Capabilities.status := 200 |}, self').
Proof.
  destruct ((Agent.reload Fixtures.collaborators)
              (Agent.set_config
                 (PDict ({[ "port" := PInt 81 ]} ∪ Fixtures.a_config))
                 Fixtures.a_nyuki)) as [outcome self'] eqn:Hreload.
  assert (Hout : outcome = Return tt).
  { vm_compute in Hreload. injection Hreload as <- _. reflexivity. }
  subst outcome. exists self'.
  destruct (Configuration_patch_returns_whole_config Fixtures.a_merge
              (Agent.reload Fixtures.collaborators) (PDict {[ "port" := PInt 81 ]})
              (PDict ({[ "port" := PInt 81 ]} ∪ Fixtures.a_config))
              Fixtures.a_nyuki self') as [Hpatch Hsame];
    [reflexivity | exact Hreload |].
  rewrite <- (Hsame Fixtures.collaborators eq_refl). exact Hpatch.
Defined.

(* ===================================================================== *)
(** ** Properties of the sample application *)
(* ===================================================================== *)

Lemma strip_prefix_app (p s : string) : Capabilities.strip_prefix p (p +:+ s) = Some s.
Proof.
  induction p as [|a p IH]; simpl; [reflexivity|].
  now rewrite Ascii.eqb_refl.
Qed.

Lemma Message_endpoint_match (seg : string) :
  Capabilities.route_match Sample.Message_endpoint ("/message/" +:+ seg) =
    if Capabilities.numeric seg then Some [("mid", seg)] else None.
Proof.
  unfold Sample.Message_endpoint, Capabilities.route_match.
  now rewrite strip_prefix_app.
Qed.

Lemma Messages_endpoint_no_match (seg : string) :
  Capabilities.route_match Sample.Messages_endpoint ("/message/" +:+ seg) = None.
Proof. reflexivity. Qed.

Lemma Message_get_unknown request mid self :
  Sample.messages self !! mid = None ->
  Sample.Message_get request mid self =
    (Return {| Capabilities.status := 404;
               Capabilities.body :=
                 PDict {[ "message" := PStr "message does not exists" ]} |},
     self).
Proof.
  intros H. unfold Sample.Message_get, dict_contains. py_unfold.
  now rewrite H.
Qed.

(** C9.  A PATCH on [/message/{mid}] whose body is a mapping without the
    key [message] returns status 400 with a body that names the error, and
    stores nothing.  With the key present it returns status 200 with the
    value, which is then stored under [mid] - also when [mid] was not in
    the store, where a GET on the same [mid] answers 404. *)
Theorem Message_patch_upserts
    (request : gmap string pyval) (mid : string) (self : Sample.Sample) :
  (request !! "message" = None ->
     Sample.Message_patch (PDict request) mid self =
       (Return {| Capabilities.status := 400;
                  Capabilities.body :=
                    PDict {[ "message" := PStr "missing message" ]} |},
        self)) /\
  (forall m, request !! "message" = Some m ->
     exists self',
       Sample.Message_patch (PDict request) mid self =
         (Return {| Capabilities.status := 200;
                    Capabilities.body := PDict {[ "message" := m ]} |},
          self') /\
       Sample.messages self' = <[mid := m]> (Sample.messages self) /\
       Sample.messages self' !! mid = Some m /\
       (Sample.messages self !! mid = None ->
          exists r, Sample.Message_get PNone mid self = (Return r, self) /\
                    Capabilities.status r = 404%Z)).
Proof.
  split.
  - intros H. unfold Sample.Message_patch, Sample.store_message. py_unfold.
    simpl. unfold dict_getitem. now rewrite H.
  - intros m H. eexists. split; [|split; [|split]].
    + unfold Sample.Message_patch, Sample.store_message. py_unfold.
      simpl. unfold dict_getitem at 1. rewrite H. simpl.
      unfold dict_getitem. rewrite lookup_insert_eq. reflexivity.
    + reflexivity.
    + simpl. apply lookup_insert_eq.
    + intros Hnew. eexists. split; [now apply Message_get_unknown|reflexivity].
Qed.

Lemma Message_patch_upserts_witness :
  Sample.Message_patch (PDict {[ "text" := PStr "hi" ]}) "3" Fixtures.a_sample =
    (Return {| Capabilities.status := 400;
               Capabilities.body :=
                 PDict {[ "message" := PStr "missing message" ]} |},
     Fixtures.a_sample) /\
  exists self',
    Sample.Message_patch (PDict {[ "message" := PStr "hi" ]}) "3"
      Fixtures.a_sample =
      (Return {| Capabilities.status := 200;
                 Capabilities.body := PDict {[ "message" := PStr "hi" ]} |},
       self') /\
    Sample.messages self' !! "3" = Some (PStr "hi").
Proof.
  split.
  - apply (proj1 (Message_patch_upserts {[ "text" := PStr "hi" ]} "3"
             Fixtures.a_sample)).
    reflexivity.
  - destruct (proj2 (Message_patch_upserts {[ "message" := PStr "hi" ]} "3"
               Fixtures.a_sample) (PStr "hi"))
      as (self' & Hrun & _ & Hstored & _); [reflexivity|].
    exists self'. split; [exact Hrun | exact Hstored].
Defined.

(** No route of the sample matches a path [/message/<segment>] whose
    segment is not numeric, whatever the method and the handlers. *)
Lemma dispatch_non_numeric {S R}
    (h1 h2 : pyval -> M S R) (h3 h4 : pyval -> string -> M S R)
    (m : Api.Method) (seg : string) (request : pyval) (s : S) :
  Capabilities.numeric seg = false ->
  Capabilities.dispatch (Sample.routes h1 h2 h3 h4) m ("/message/" +:+ seg)
    request s = (Raise HTTPNotFound, s).
Proof.
  intros Hseg. unfold Sample.routes, Capabilities.dispatch.
  cbn [Capabilities.route_method Capabilities.route_endpoint
       Capabilities.route_handler].
  rewrite !Messages_endpoint_no_match, !Message_endpoint_match, Hseg.
  repeat match goal with
         | |- context [Api.Method_eqb ?a m] => destruct (Api.Method_eqb a m)
         end; reflexivity.
Qed.

(** C7.  [Message.get] answers an id that is not in the store with status
    404 and a body that holds an error message, and the same reply comes
    out of the routes of the sample for a GET on [/message/<id>] with a
    numeric id that is not in the store.  When the segment is not numeric,
    no route matches: "not found", which stands for a 404, is raised
    whatever the handlers are, so none of them is invoked, and the state is
    untouched. *)
Theorem Message_get_unknown_or_unrouted
    (request : pyval) (seg : string) (self : Sample.Sample) :
  (Sample.messages self !! seg = None ->
     Sample.Message_get request seg self =
       (Return {| Capabilities.status := 404;
                  Capabilities.body :=
                    PDict {[ "message" := PStr "message does not exists" ]} |},
        self)) /\
  (Capabilities.numeric seg = true ->
   Sample.messages self !! seg = None ->
   forall (h1 h2 : pyval -> M Sample.Sample Capabilities.Response)
          (h4 : pyval -> string -> M Sample.Sample Capabilities.Response),
     Capabilities.dispatch (Sample.routes h1 h2 Sample.Message_get h4)
       Api.GET ("/message/" +:+ seg) request self =
       (Return {| Capabilities.status := 404;
                  Capabilities.body :=
                    PDict {[ "message" := PStr "message does not exists" ]} |},
        self)) /\
  (Capabilities.numeric seg = false ->
   Capabilities.route_match Sample.Message_endpoint ("/message/" +:+ seg) = None /\
   Capabilities.status_of_exn HTTPNotFound = 404%Z /\
   forall (h1 h2 : pyval -> M Sample.Sample Capabilities.Response)
          (h3 h4 : pyval -> string -> M Sample.Sample Capabilities.Response),
     Capabilities.dispatch (Sample.routes h1 h2 h3 h4)
       Api.GET ("/message/" +:+ seg) request self =
       (Raise HTTPNotFound, self)).
Proof.
  split; [|split].
  - apply Message_get_unknown.
  - intros Hnum Hnew h1 h2 h4.
    unfold Sample.routes, Capabilities.dispatch.
    cbn [Capabilities.route_method Capabilities.route_endpoint
         Capabilities.route_handler].
    rewrite !Messages_endpoint_no_match, !Message_endpoint_match, Hnum.
    change (Api.Method_eqb Api.GET Api.GET) with true.
    change (Api.Method_eqb Api.POST Api.GET) with false.
    cbn iota. unfold Sample.with_mid.
    change ("mid" =? "mid")%string with true. cbn iota.
    now apply Message_get_unknown.
  - intros Hseg. split; [|split].
    + now rewrite Message_endpoint_match, Hseg.
    + reflexivity.
    + intros h1 h2 h3 h4. now apply dispatch_non_numeric.
Qed.

Lemma Message_get_unknown_or_unrouted_witness :
  Sample.Message_get PNone "7" Fixtures.a_sample =
    (Return {| Capabilities.status := 404;
               Capabilities.body :=
                 PDict {[ "message" := PStr "message does not exists" ]} |},
     Fixtures.a_sample) /\
  Capabilities.dispatch
    (Sample.routes Sample.Messages_get Sample.Messages_get
       Sample.Message_get Sample.Message_patch)
    Api.GET ("/message/" +:+ "abc") PNone Fixtures.a_sample =
    (Raise HTTPNotFound, Fixtures.a_sample).
Proof.
  split.
  - apply (proj1 (Message_get_unknown_or_unrouted PNone "7" Fixtures.a_sample)).
    reflexivity.
  - apply (proj2 (proj2 (Message_get_unknown_or_unrouted PNone "abc"
                           Fixtures.a_sample))).
    reflexivity.
Defined.

(* ===================================================================== *)
(** ** Properties of the bus *)
(* ===================================================================== *)

Section BusProperties.
Variables (topic host : string).
Variable json_dumps : pyval -> string.
Variable repr : exn -> string.
Variable http_request : string -> string -> string -> result Bus.BusResponse.

Lemma publish_dict (d : gmap string pyval) (w : Bus.Wire) :
  Bus.publish topic host json_dumps (PDict d) w =
    (Return tt,
     {| Bus.sent := Bus.sent w ++
          [{| Bus.msg_type := "groupchat";
              Bus.msg_to := Bus._muc_address host topic;
              Bus.msg_body := json_dumps (PDict d) |}];
        Bus.http_calls := Bus.http_calls w |}).
Proof. reflexivity. Qed.

Lemma publish_not_dict (payload : pyval) (w : Bus.Wire) :
  (forall d, payload <> PDict d) ->
  Bus.publish topic host json_dumps payload w =
    (Raise (TypeError "Message must be a dictionary"), w).
Proof.
  intros H. destruct payload; try reflexivity. now destruct (H d).
Qed.
End BusProperties.

(** C6.  [publish] of a payload that is not a mapping raises a
    [TypeError] and puts nothing on the network: no stanza and no HTTP call
    are added.  [publish] of a mapping returns at once, having sent one
    stanza to the agent's own topic whose body is the payload serialized
    to JSON. *)
Theorem publish_checks_payload
    (topic host : string) (json_dumps : pyval -> string)
    (payload : pyval) (w : Bus.Wire) :
  ((forall d, payload <> PDict d) ->
     exists msg,
       Bus.publish topic host json_dumps payload w = (Raise (TypeError msg), w)) /\
  (forall d, payload = PDict d ->
     exists w',
       Bus.publish topic host json_dumps payload w = (Return tt, w') /\
       Bus.sent w' = Bus.sent w ++
         [{| Bus.msg_type := "groupchat";
             Bus.msg_to := topic +:+ "@mucs." +:+ host;
             Bus.msg_body := json_dumps payload |}] /\
       Bus.http_calls w' = Bus.http_calls w).
Proof.
  split.
  - intros H. eexists. now apply publish_not_dict.
  - intros d ->. eexists. split; [apply publish_dict|]. split; reflexivity.
Qed.

Lemma publish_checks_payload_witness :
  (exists msg,
     Bus.publish "login" "localhost" Fixtures.a_dumps (PStr "not a dict")
       Fixtures.a_wire = (Raise (TypeError msg), Fixtures.a_wire)) /\
  (exists w',
     Bus.publish "login" "localhost" Fixtures.a_dumps
       (PDict {[ "message" := PStr "test" ]}) Fixtures.a_wire = (Return tt, w') /\
     Bus.sent w' =
       [{| Bus.msg_type := "groupchat";
           Bus.msg_to := "login@mucs.localhost";
           Bus.msg_body := "{...}" |}]).
Proof.
  split.
  - apply (proj1 (publish_checks_payload "login" "localhost" Fixtures.a_dumps
             (PStr "not a dict") Fixtures.a_wire)).
    intros d Hd. discriminate Hd.
  - destruct (proj2 (publish_checks_payload "login" "localhost" Fixtures.a_dumps
               (PDict {[ "message" := PStr "test" ]}) Fixtures.a_wire)
               {[ "message" := PStr "test" ]} eq_refl)
      as (w' & Hrun & Hsent & _).
    exists w'. split; [exact Hrun | exact Hsent].
Defined.

(** C5.  When the HTTP client fails with a transport-level error, [request]
    does not raise: it returns the exception object to its caller, having
    sent exactly one stanza, to the agent's own topic, whose body is the
    serialized document with the endpoint, the error and the data. *)
Theorem request_publishes_transport_error
    (topic host : string) (json_dumps : pyval -> string) (repr : exn -> string)
    (http_request : string -> string -> string -> result Bus.BusResponse)
    (recipient : option string) (endpoint method : string) (data : pyval)
    (exc : exn) (w : Bus.Wire) :
  http_request method (Bus.request_url recipient endpoint) (json_dumps data)
    = Raise exc ->
  Bus.is_transport_error exc = true ->
  let url := Bus.request_url recipient endpoint in
  let document :=
    PDict (<["endpoint" := PStr url]>
           (<["error" := PStr (repr exc)]> (<["data" := data]> ∅))) in
  exists w',
    Bus.request topic host json_dumps repr http_request
      recipient endpoint method data w = (Return (Bus.Failure exc), w') /\
    Bus.sent w' = Bus.sent w ++
      [{| Bus.msg_type := "groupchat";
          Bus.msg_to := topic +:+ "@mucs." +:+ host;
          Bus.msg_body := json_dumps document |}].
Proof.
  intros Hhttp Herr url document. subst url document.
  unfold Bus.request, Bus._execute_request. py_unfold.
  lazy beta iota zeta. rewrite Hhttp, Herr.
  eexists. split; reflexivity.
Qed.

Lemma request_publishes_transport_error_witness :
  exists w',
    Bus.request "login" "localhost" Fixtures.a_dumps Fixtures.show_exn
      Fixtures.refusing_http None "url" "get"
      (PDict {[ "message" := PStr "text" ]}) Fixtures.a_wire =
      (Return (Bus.Failure ClientOSError), w') /\
    Bus.sent w' =
      [{| Bus.msg_type := "groupchat";
          Bus.msg_to := "login@mucs.localhost";
          Bus.msg_body := "{...}" |}].
Proof.
  destruct (request_publishes_transport_error "login" "localhost"
              Fixtures.a_dumps Fixtures.show_exn Fixtures.refusing_http
              None "url" "get" (PDict {[ "message" := PStr "text" ]})
              ClientOSError Fixtures.a_wire eq_refl eq_refl)
    as (w' & Hrun & Hsent).
  exists w'. split; [exact Hrun | exact Hsent].
Defined.

(* ===================================================================== *)
(** ** Further properties of the agent *)
(* ===================================================================== *)

Lemma py_getitem_Return (v : pyval) (k : string) (x : pyval) :
  py_getitem v k = Return x <-> exists d, v = PDict d /\ d !! k = Some x.
Proof.
  split.
  - destruct v; simpl; try discriminate. unfold dict_getitem.
    destruct (d !! k) eqn:Hk; [|discriminate].
    intros [= ->]. eauto.
  - intros (d & -> & Hk). simpl. unfold dict_getitem. now rewrite Hk.
Qed.

Lemma py_kwargs_Return (v : pyval) (d : gmap string pyval) :
  py_kwargs v = Return d <-> v = PDict d.
Proof.
  split.
  - destruct v; simpl; try discriminate. now intros [= ->].
  - now intros ->.
Qed.

(** What a [reload] that returned has gone through. *)
Lemma reload_returns_only_if (env : Agent.Collaborators)
    (self self' : Agent.Nyuki) :
  Agent.reload env self = (Return tt, self') ->
  exists cfg log_conf bus_kw api_kw,
    Agent._config self = PDict cfg /\
    cfg !! "log" = Some log_conf /\
    cfg !! "bus" = Some (PDict bus_kw) /\
    cfg !! "api" = Some (PDict api_kw) /\
    bus_kw !! "loop" = None /\
    bus_kw !! "event_manager" = None /\
    Agent.dictConfig_outcome env log_conf = None /\
    Agent.Bus_outcome env bus_kw = None /\
    Agent.connect_outcome env
      {| Agent.oid := Agent.constructed self; Agent.kwargs := bus_kw |} = None /\
    Agent.restart_outcome env api_kw = None.
Proof.
  intros Hrun. rewrite reload_unfold in Hrun. cbv zeta in Hrun.
  destruct (py_getitem (Agent._config self) "log") as [lc|e] eqn:Hlog;
    [|discriminate Hrun].
  destruct (Agent.dictConfig_outcome env lc) as [e|] eqn:Hdict;
    [discriminate Hrun|].
  destruct (py_getitem (Agent._config self) "bus") as [bc|e] eqn:Hbus;
    [|discriminate Hrun].
  destruct (py_kwargs bc) as [kw|e] eqn:Hkw; [|discriminate Hrun].
  destruct (dict_contains "loop" kw || dict_contains "event_manager" kw)
    eqn:Hdup; [discriminate Hrun|].
  destruct (Agent.Bus_outcome env kw) as [e|] eqn:Hctor; [discriminate Hrun|].
  destruct (Agent.connect_outcome env _) as [e|] eqn:Hconn;
    [discriminate Hrun|].
  destruct (py_getitem (Agent._config self) "api") as [ac|e] eqn:Hapi;
    [|discriminate Hrun].
  destruct (py_kwargs ac) as [opts|e] eqn:Hopts; [|discriminate Hrun].
  destruct (Agent.restart_outcome env opts) as [e|] eqn:Hrest;
    [discriminate Hrun|].
  apply py_getitem_Return in Hlog as (cfg & Hcfg & Hl).
  apply py_getitem_Return in Hbus as (cfg' & Hcfg' & Hb).
  apply py_getitem_Return in Hapi as (cfg'' & Hcfg'' & Ha).
  apply py_kwargs_Return in Hkw, Hopts. subst bc ac.
  rewrite Hcfg in Hcfg', Hcfg''.
  injection Hcfg' as <-. injection Hcfg'' as <-.
  apply orb_false_elim in Hdup as [Hloop Hem].
  apply dict_contains_false_inv in Hloop, Hem.
  exists cfg, lc, kw, opts. repeat split; assumption.
Qed.

(** X1.  [reload] returns only when the configuration is a mapping that
    holds an entry [log] which [dictConfig] accepted, an entry [bus] that is
    a mapping naming neither [loop] nor [event_manager], from which the bus
    was constructed and connected, and an entry [api] that is a mapping
    with which the Exposer restarted.  It has then made six calls: the
    write, the disconnection, [dictConfig], the construction and the
    connection of the bus, the restart. *)
Theorem reload_returns_only_with_complete_config
    (env : Agent.Collaborators) (self self' : Agent.Nyuki) :
  Agent.reload env self = (Return tt, self') ->
  exists cfg log_conf bus_kw api_kw,
    let new_bus := {| Agent.oid := Agent.constructed self;
                      Agent.kwargs := bus_kw |} in
    Agent._config self = PDict cfg /\
    cfg !! "log" = Some log_conf /\
    cfg !! "bus" = Some (PDict bus_kw) /\
    cfg !! "api" = Some (PDict api_kw) /\
    bus_kw !! "loop" = None /\
    bus_kw !! "event_manager" = None /\
    Agent.dictConfig_outcome env log_conf = None /\
    Agent.Bus_outcome env bus_kw = None /\
    Agent.connect_outcome env new_bus = None /\
    Agent.restart_outcome env api_kw = None /\
    Agent.calls self' =
      Agent.calls self ++
        [Agent.write_conf_json (PDict cfg) (Agent.config_filename self);
         Agent.Bus_disconnect (Agent._bus self) None;
         Agent.logging_dictConfig log_conf;
         Agent.Bus_init new_bus;
         Agent.Bus_connect new_bus;
         Agent.Exposer_restart_call api_kw].
Proof.
  intros Hrun.
  destruct (reload_returns_only_if env self self' Hrun)
    as (cfg & lc & kw & opts & Hcfg & Hl & Hb & Ha & Hloop & Hem
        & Hdict & Hctor & Hconn & Hrest).
  exists cfg, lc, kw, opts. cbv zeta.
  repeat (split; [assumption|]).
  rewrite (reload_runs env self cfg lc kw opts
             Hcfg Hl Hb Ha Hloop Hem Hdict Hctor Hconn Hrest) in Hrun.
  injection Hrun as <-. simpl. now rewrite Hcfg.
Qed.

Lemma reload_returns_only_with_complete_config_witness :
  exists cfg log_conf,
    Agent._config Fixtures.a_nyuki = PDict cfg /\
    cfg !! "log" = Some log_conf /\
    Agent.dictConfig_outcome Fixtures.collaborators log_conf = None.
Proof.
  destruct (reload_returns_only_with_complete_config Fixtures.collaborators
              Fixtures.a_nyuki
              (snd (Agent.reload Fixtures.collaborators Fixtures.a_nyuki)))
    as (cfg & lc & kw & opts & Hcfg & Hl & _ & _ & _ & _ & Hdict & _);
    [reflexivity|].
  exists cfg, lc. split; [exact Hcfg|]. split; [exact Hl | exact Hdict].
Defined.

Lemma reload_without_log_settings_aux (env : Agent.Collaborators)
    (self : Agent.Nyuki) (cfg : gmap string pyval) :
  Agent._config self = PDict cfg ->
  cfg !! "log" = None ->
  Agent.reload env self =
    (Raise (KeyError "log"),
     Agent.set_calls
       (Agent.calls self ++
          [Agent.write_conf_json (PDict cfg) (Agent.config_filename self);
           Agent.Bus_disconnect (Agent._bus self) None]) self).
Proof.
  intros Hcfg Hlog. rewrite reload_unfold. cbv zeta.
  rewrite Hcfg. simpl. unfold dict_getitem. now rewrite Hlog.
Qed.

(** X3.  When the configuration is a mapping without the entry [log],
    [reload] raises [KeyError] after the configuration has been written and
    the bus disconnected: the agent still holds that bus, no bus has been
    built or connected, and the Exposer has not been restarted. *)
Theorem reload_without_log_settings
    (env : Agent.Collaborators)
    (self : Agent.Nyuki) (cfg : gmap string pyval) :
  Agent._config self = PDict cfg ->
  cfg !! "log" = None ->
  Agent.reload env self =
    (Raise (KeyError "log"),
     Agent.set_calls
       (Agent.calls self ++
          [Agent.write_conf_json (PDict cfg) (Agent.config_filename self);
           Agent.Bus_disconnect (Agent._bus self) None]) self).
Proof.
  intros Hcfg Hlog. now apply reload_without_log_settings_aux.
Qed.

Lemma reload_without_log_settings_witness :
  Agent.reload Fixtures.collaborators
    (Agent.set_config (PDict ∅) Fixtures.a_nyuki) =
    (Raise (KeyError "log"),
     Agent.set_calls
       [Agent.write_conf_json (PDict ∅) "conf.json";
        Agent.Bus_disconnect (Agent._bus Fixtures.a_nyuki) None]
       (Agent.set_config (PDict ∅) Fixtures.a_nyuki)).
Proof.
  exact (reload_without_log_settings Fixtures.collaborators
           (Agent.set_config (PDict ∅) Fixtures.a_nyuki) ∅ eq_refl eq_refl).
Defined.

(** X4.  When the configuration has a [log] entry that [dictConfig]
    accepts and a [bus] mapping, naming neither [loop] nor [event_manager],
    from which the bus is constructed and connected, but no entry [api],
    [reload] raises [KeyError] once the new bus has been built and
    connected: the agent holds the new bus, and the Exposer is as it was,
    still serving with its former options. *)
Theorem reload_without_api_settings
    (env : Agent.Collaborators)
    (self : Agent.Nyuki) (cfg : gmap string pyval)
    (log_conf : pyval) (bus_kw : gmap string pyval) :
  Agent._config self = PDict cfg ->
  cfg !! "log" = Some log_conf ->
  cfg !! "bus" = Some (PDict bus_kw) ->
  cfg !! "api" = None ->
  bus_kw !! "loop" = None ->
  bus_kw !! "event_manager" = None ->
  let new_bus := {| Agent.oid := Agent.constructed self; Agent.kwargs := bus_kw |} in
  Agent.dictConfig_outcome env log_conf = None ->
  Agent.Bus_outcome env bus_kw = None ->
  Agent.connect_outcome env new_bus = None ->
  exists self',
    Agent.reload env self = (Raise (KeyError "api"), self') /\
    Agent.calls self' =
      Agent.calls self ++
        [Agent.write_conf_json (PDict cfg) (Agent.config_filename self);
         Agent.Bus_disconnect (Agent._bus self) None;
         Agent.logging_dictConfig log_conf;
         Agent.Bus_init new_bus;
         Agent.Bus_connect new_bus] /\
    Agent._bus self' = new_bus /\
    Agent._exposer self' = Agent._exposer self.
Proof.
  intros Hcfg Hlog Hbus Hapi Hloop Hem new_bus Hdict Hctor Hconn.
  rewrite reload_unfold. cbv zeta.
  rewrite Hcfg. simpl. unfold dict_getitem. rewrite Hlog, Hdict, Hbus. simpl.
  rewrite (dict_contains_false _ _ Hloop), (dict_contains_false _ _ Hem). simpl.
  rewrite Hctor. fold new_bus. rewrite Hconn, Hapi.
  eexists. split; [reflexivity|].
  simpl. repeat split; reflexivity.
Qed.

Lemma reload_without_api_settings_witness :
  exists self',
    Agent.reload Fixtures.collaborators
      (Agent.set_config (PDict (delete "api" Fixtures.a_config)) Fixtures.a_nyuki)
      = (Raise (KeyError "api"), self') /\
    Agent._bus self' <> Agent._bus Fixtures.a_nyuki /\
    Agent._exposer self' = Agent._exposer Fixtures.a_nyuki.
Proof.
  destruct (reload_without_api_settings Fixtures.collaborators
              (Agent.set_config (PDict (delete "api" Fixtures.a_config))
                 Fixtures.a_nyuki)
              (delete "api" Fixtures.a_config) Fixtures.a_log_conf
              Fixtures.a_bus_conf)
    as (self' & Hrun & _ & Hbus & Hexp); try reflexivity.
  exists self'. split; [exact Hrun|]. split; [|exact Hexp].
  rewrite Hbus. discriminate.
Defined.

(** X6.  A PATCH on [/config] turns only a validation error into a
    response: any other exception raised by the merge leaves the handler as
    it is, with the agent unchanged and [reload] not run. *)
Theorem Configuration_patch_other_errors_propagate
    (merge_configs : pyval -> list pyval -> result pyval)
    (reload_method : M Agent.Nyuki unit)
    (request : pyval) (self : Agent.Nyuki) (e : exn) :
  merge_configs (Agent._config self) [request] = Raise e ->
  is_ValidationError e = false ->
  Agent.Configuration_patch merge_configs reload_method request self =
    (Raise e, self).
Proof.
  intros Hmerge He. unfold Agent.Configuration_patch, try_except_else.
  now rewrite update_config_runs, Hmerge, He.
Qed.

Lemma Configuration_patch_other_errors_propagate_witness :
  Agent.Configuration_patch Fixtures.a_merge
    (Agent.reload Fixtures.collaborators)
    (PList []) Fixtures.a_nyuki =
    (Raise (TypeError "configurations are mappings"), Fixtures.a_nyuki).
Proof.
  exact (Configuration_patch_other_errors_propagate Fixtures.a_merge
           (Agent.reload Fixtures.collaborators) (PList []) Fixtures.a_nyuki
           (TypeError "configurations are mappings") eq_refl eq_refl).
Defined.

(** X7.  A PATCH on [/config] is not undone when [reload] fails.  If the
    merged configuration is a mapping without the entry [log], the handler
    raises [KeyError], yet the agent holds the merged configuration, that
    configuration has been written to the file, and the bus has been
    disconnected. *)
Theorem Configuration_patch_keeps_config_when_reload_fails
    (env : Agent.Collaborators)
    (merge_configs : pyval -> list pyval -> result pyval)
    (request : pyval) (self : Agent.Nyuki) (merged : gmap string pyval) :
  merge_configs (Agent._config self) [request] = Return (PDict merged) ->
  merged !! "log" = None ->
  exists self',
    Agent.Configuration_patch merge_configs (Agent.reload env) request self =
      (Raise (KeyError "log"), self') /\
    Agent._config self' = PDict merged /\
    Agent.calls self' =
      Agent.calls self ++
        [Agent.write_conf_json (PDict merged) (Agent.config_filename self);
         Agent.Bus_disconnect (Agent._bus self) None].
Proof.
  intros Hmerge Hlog.
  rewrite (Configuration_patch_accepted _ _ _ _ _ Hmerge).
  rewrite (reload_without_log_settings_aux env
             (Agent.set_config (PDict merged) self) merged eq_refl Hlog).
  eexists. split; [reflexivity|]. split; reflexivity.
Qed.

Lemma Configuration_patch_keeps_config_when_reload_fails_witness :
  exists self',
    Agent.Configuration_patch Fixtures.a_merge
      (Agent.reload Fixtures.collaborators)
      (PDict {[ "port" := PInt 81 ]})
      (Agent.set_config (PDict ∅) Fixtures.a_nyuki) =
      (Raise (KeyError "log"), self') /\
    Agent._config self' = PDict ({[ "port" := PInt 81 ]} ∪ ∅).
Proof.
  destruct (Configuration_patch_keeps_config_when_reload_fails
              Fixtures.collaborators
              Fixtures.a_merge (PDict {[ "port" := PInt 81 ]})
              (Agent.set_config (PDict ∅) Fixtures.a_nyuki)
              ({[ "port" := PInt 81 ]} ∪ ∅))
    as (self' & Hrun & Hcfg & _); [reflexivity | reflexivity |].
  exists self'. split; [exact Hrun | exact Hcfg].
Defined.

(** X8.  After a PATCH on [/config] that was accepted and reloaded by the
    [reload] of the base class, a GET on [/config] answers with status 200
    and the body the PATCH answered with, the merged configuration, and
    changes nothing. *)
Theorem Configuration_get_after_patch
    (env : Agent.Collaborators)
    (merge_configs : pyval -> list pyval -> result pyval)
    (request request' : pyval) (self self' : Agent.Nyuki)
    (response : Capabilities.Response) (merged : pyval) :
  merge_configs (Agent._config self) [request] = Return merged ->
  Agent.Configuration_patch merge_configs (Agent.reload env) request self =
    (Return response, self') ->
  Agent.Configuration_get request' self' = (Return response, self') /\
  response = {| Capabilities.body := merged; Capabilities.status := 200 |}.
Proof.
  intros Hmerge Hpatch.
  rewrite (Configuration_patch_accepted _ _ _ _ _ Hmerge) in Hpatch.
  destruct (Agent.reload env (Agent.set_config merged self))
    as [[[]|e] self''] eqn:Hreload; [|discriminate Hpatch].
  injection Hpatch as <- <-.
  apply reload_keeps_config in Hreload. simpl in Hreload.
  unfold Agent.Configuration_get. py_unfold.
  rewrite Hreload. split; reflexivity.
Qed.

Lemma Configuration_get_after_patch_witness :
  exists self',
    Agent.Configuration_get PNone self' =
      (Return {| Capabilities.body :=
                   PDict ({[ "port" := PInt 81 ]} ∪ Fixtures.a_config);
                 Capabilities.status := 200 |}, self').
Proof.
  destruct (Agent.Configuration_patch Fixtures.a_merge
              (Agent.reload Fixtures.collaborators)
              (PDict {[ "port" := PInt 81 ]}) Fixtures.a_nyuki)
    as [response self'] eqn:Hpatch.
  assert (Hret : exists r, response = Return r).
  { vm_compute in Hpatch. injection Hpatch as <- _. eexists. reflexivity. }
  destruct Hret as [r ->].
  destruct (Configuration_get_after_patch Fixtures.collaborators
              Fixtures.a_merge
              (PDict {[ "port" := PInt 81 ]}) PNone Fixtures.a_nyuki self' r
              (PDict ({[ "port" := PInt 81 ]} ∪ Fixtures.a_config)))
    as [Hget Hr]; [reflexivity | exact Hpatch |].
  exists self'. rewrite <- Hr. exact Hget.
Defined.

(** X9.  The signal handler [abort] logs the signal number and then stops
    the agent as [stop] does with its default timeout of 5, whatever the
    signal: Exposer shutdown, bus disconnection bounded by 5, loop stop. *)
Theorem abort_stops_with_default_timeout (signum : Z) (self : Agent.Nyuki) :
  exists self',
    Agent.abort signum self = (Return tt, self') /\
    Agent.calls self' =
      Agent.calls self ++
        [Agent.log_warning_signal signum;
         Agent.Exposer_shutdown_call;
         Agent.Bus_disconnect (Agent._bus self) (Some 5%Z);
         Agent.EventLoop_stop] /\
    Agent._config self' = Agent._config self /\
    Agent._bus self' = Agent._bus self.
Proof.
  eexists. split; [|split; [|split]].
  - unfold Agent.abort, Agent.call, Agent.stop_default_timeout. py_unfold.
    rewrite stop_runs. reflexivity.
  - simpl. now rewrite <- app_assoc.
  - reflexivity.
  - reflexivity.
Qed.

Lemma abort_stops_with_default_timeout_witness :
  exists self',
    Agent.abort 15 Fixtures.a_nyuki = (Return tt, self') /\
    Agent.calls self' =
      [Agent.log_warning_signal 15;
       Agent.Exposer_shutdown_call;
       Agent.Bus_disconnect (Agent._bus Fixtures.a_nyuki) (Some 5%Z);
       Agent.EventLoop_stop].
Proof.
  destruct (abort_stops_with_default_timeout 15 Fixtures.a_nyuki)
    as (self' & Hrun & Hcalls & _).
  exists self'. split; [exact Hrun | exact Hcalls].
Defined.

(** X10.  When [stop] follows a [reload] that returned, on an agent whose
    bus was constructed before, the bus it disconnects is the one [reload]
    built and connected, which is not the bus the agent held before: over
    the two methods each of the two buses is disconnected once, the old one
    before the new one is built. *)
Theorem stop_after_reload_disconnects_new_bus
    (env : Agent.Collaborators)
    (timeout : Z) (self reloaded : Agent.Nyuki) :
  Agent.oid (Agent._bus self) < Agent.constructed self ->
  Agent.reload env self = (Return tt, reloaded) ->
  exists stopped bus_kw log_conf options,
    let new_bus := {| Agent.oid := Agent.constructed self;
                      Agent.kwargs := bus_kw |} in
    Agent.stop timeout reloaded = (Return tt, stopped) /\
    Agent.calls stopped =
      Agent.calls self ++
        [Agent.write_conf_json (Agent._config self) (Agent.config_filename self);
         Agent.Bus_disconnect (Agent._bus self) None;
         Agent.logging_dictConfig log_conf;
         Agent.Bus_init new_bus;
         Agent.Bus_connect new_bus;
         Agent.Exposer_restart_call options;
         Agent.Exposer_shutdown_call;
         Agent.Bus_disconnect new_bus (Some timeout);
         Agent.EventLoop_stop] /\
    Agent._bus stopped = new_bus /\
    new_bus <> Agent._bus self.
Proof.
  intros Hold Hreload.
  destruct (reload_returns_only_if env self reloaded Hreload)
    as (cfg & lc & kw & opts & Hcfg & Hl & Hb & Ha & Hloop & Hem
        & Hdict & Hctor & Hconn & Hrest).
  rewrite (reload_runs env self cfg lc kw opts
             Hcfg Hl Hb Ha Hloop Hem Hdict Hctor Hconn Hrest) in Hreload.
  injection Hreload as <-.
  eexists. exists kw, lc, opts. split; [apply stop_runs|].
  simpl. split; [now rewrite <- app_assoc|]. split; [reflexivity|].
  intros Heq. rewrite <- Heq in Hold. simpl in Hold. lia.
Qed.

Lemma stop_after_reload_disconnects_new_bus_witness :
  exists stopped,
    Agent.stop 5 (snd (Agent.reload Fixtures.collaborators Fixtures.a_nyuki)) =
      (Return tt, stopped) /\
    Agent._bus stopped <> Agent._bus Fixtures.a_nyuki.
Proof.
  destruct (stop_after_reload_disconnects_new_bus Fixtures.collaborators 5
              Fixtures.a_nyuki
              (snd (Agent.reload Fixtures.collaborators Fixtures.a_nyuki)))
    as (stopped & kw & lc & opts & Hstop & _ & Hbus & Hne);
    [simpl; lia | reflexivity |].
  exists stopped. split; [exact Hstop|].
  rewrite Hbus. exact Hne.
Defined.

(* ===================================================================== *)
(** ** Further properties of nyuki/api.py *)
(* ===================================================================== *)

(** X11.  The middleware raises an exception exactly when the capability
    handler raises it.  It leaves the handler's own state and the exception
    handler of the loop as the capability handler left them, keeps every
    report made before, and adds at most one report, which happens only
    for an instance of [Exception] other than "not found" on a loop that has
    an exception handler. *)
Theorem mw_capability_reports_at_most_once
    {U : Type} (str : exn -> string) (capa_handler : Api.handler_t U)
    (request : Api.Request) (l l1 l2 : Api.Loop U)
    (r1 : result Api.capa_result) (r2 : result Api.web_Response) :
  capa_handler request (Api.match_info request) l = (r1, l1) ->
  Api.mw_capability str capa_handler request l = (r2, l2) ->
  (forall e, r1 = Raise e <-> r2 = Raise e) /\
  Api.user l2 = Api.user l1 /\
  Api._exception_handler l2 = Api._exception_handler l1 /\
  exists extra,
    Api.reported l2 = Api.reported l1 ++ extra /\
    length extra <= 1 /\
    (extra <> [] ->
       exists e, r1 = Raise e /\ is_HTTPNotFound e = false /\
                 is_Exception e = true /\ Api._exception_handler l1 = true).
Proof.
  intros Hh Hmw. rewrite mw_capability_of_call in Hmw.
  assert (Hquiet : forall (e : exn) (l' : Api.Loop U) (b : bool),
            Api._exception_handler l' = b ->
            Api.user l' = Api.user l' /\
            Api._exception_handler l' = b /\
            exists extra,
              Api.reported l' = Api.reported l' ++ extra /\
              length extra <= 1 /\
              (extra <> [] ->
                 exists e', @Raise Api.capa_result e = Raise e' /\
                            is_HTTPNotFound e' = false /\
                            is_Exception e' = true /\ b = true)).
  { intros e l' b Hb. split; [reflexivity|]. split; [exact Hb|].
    exists []. rewrite app_nil_r. split; [reflexivity|].
    split; [simpl; lia|]. now intros []. }
  destruct r1 as [c|e].
  - rewrite (call_capability_returns str _ _ _ _ _ Hh) in Hmw.
    assert (Hl : l2 = l1 /\ exists r, r2 = Return r).
    { destruct c; injection Hmw as <- <-; eauto. }
    destruct Hl as [-> [r ->]].
    split; [intros ?; split; discriminate|]. split; [reflexivity|].
    split; [reflexivity|].
    exists []. rewrite app_nil_r. split; [reflexivity|].
    split; [simpl; lia|]. now intros [].
  - rewrite (call_capability_raises str _ _ _ _ _ Hh) in Hmw.
    destruct (is_HTTPNotFound e) eqn:Hnf.
    { injection Hmw as <- <-.
      split; [intros ?; split; intros [= ->]; reflexivity|].
      now apply Hquiet. }
    destruct (is_Exception e) eqn:Hex.
    2:{ injection Hmw as <- <-.
        split; [intros ?; split; intros [= ->]; reflexivity|].
        now apply Hquiet. }
    destruct (Api._exception_handler l1) eqn:Hset.
    + injection Hmw as <- <-.
      split; [intros ?; split; intros [= ->]; reflexivity|].
      split; [reflexivity|]. split; [reflexivity|].
      eexists. split; [reflexivity|]. split; [simpl; lia|].
      intros _. exists e. auto.
    + injection Hmw as <- <-.
      split; [intros ?; split; intros [= ->]; reflexivity|].
      now apply Hquiet.
Qed.

Lemma mw_capability_reports_at_most_once_witness :
  exists extra,
    Api.reported
      (snd (Api.mw_capability Fixtures.show_exn Fixtures.failing_handler
              Fixtures.a_request Fixtures.watched_loop)) =
      Api.reported Fixtures.watched_loop ++ extra /\
    length extra <= 1.
Proof.
  destruct (mw_capability_reports_at_most_once Fixtures.show_exn
              Fixtures.failing_handler Fixtures.a_request
              Fixtures.watched_loop Fixtures.watched_loop
              (snd (Api.mw_capability Fixtures.show_exn Fixtures.failing_handler
                      Fixtures.a_request Fixtures.watched_loop))
              (Raise (RuntimeError "boom")) (Raise (RuntimeError "boom")))
    as (_ & _ & _ & extra & Hrep & Hlen & _); [reflexivity | reflexivity |].
  exists extra. split; [exact Hrep | exact Hlen].
Defined.

(** X12.  [Method.list()] names every member of the enumeration once: the
    nine names are pairwise distinct, and two members with the same name
    are the same member. *)
Theorem Method_list_names_each_member_once :
  length Api.Method_list = 9 /\
  NoDup Api.Method_list /\
  (forall m, In (Api.Method_name m) Api.Method_list) /\
  (forall a b, Api.Method_name a = Api.Method_name b -> a = b).
Proof.
  split; [reflexivity|]. split; [|split].
  - unfold Api.Method_list. simpl.
    repeat (apply NoDup_cons_2;
            [intros Hin; apply list_elem_of_In in Hin; simpl in Hin;
             repeat (destruct Hin as [Hin|Hin]; [discriminate Hin|]);
             exact Hin|]).
    apply NoDup_nil_2.
  - intros m. destruct m; simpl; tauto.
  - intros a b H. destruct a, b; simpl in H; try discriminate H; reflexivity.
Qed.

Lemma Method_list_names_each_member_once_witness :
  In "PATCH" Api.Method_list /\
  (Api.Method_name Api.PUT = Api.Method_name Api.PUT -> Api.PUT = Api.PUT).
Proof.
  destruct Method_list_names_each_member_once as (_ & _ & Hin & Hinj).
  split; [exact (Hin Api.PATCH) | exact (Hinj Api.PUT Api.PUT)].
Defined.

(** X13.  [destroy] on an [Api] that holds no server, as is the case until
    [build] has run, ends with [AttributeError] on the very first statement:
    nothing is closed and the object is unchanged. *)
Theorem destroy_before_build_fails (self : HttpServer.Api) :
  HttpServer._server self = None ->
  HttpServer.destroy self = (HttpServer.AttributeError_on_None "close", self).
Proof.
  intros H. unfold HttpServer.destroy. now rewrite H.
Qed.

Lemma destroy_before_build_fails_witness :
  HttpServer.destroy HttpServer.Api_init_default =
    (HttpServer.AttributeError_on_None "close", HttpServer.Api_init_default).
Proof.
  exact (destroy_before_build_fails HttpServer.Api_init_default eq_refl).
Defined.




(* ===================================================================== *)
(** ** Further properties of the sample application *)
(* ===================================================================== *)

Lemma Message_get_known request mid self m :
  Sample.messages self !! mid = Some m ->
  Sample.Message_get request mid self =
    (Return {| Capabilities.body := PDict {[ "message" := m ]};
               Capabilities.status := 200 |}, self).
Proof.
  intros H. unfold Sample.Message_get, dict_contains, dict_getitem. py_unfold.
  now rewrite H.
Qed.

(** The outcome of [Message.patch] for any body. *)
Lemma Message_patch_cases (request : pyval) (mid : string) (self : Sample.Sample) :
  Sample.Message_patch request mid self =
    match py_getitem request "message" with
    | Return m =>
        (Return {| Capabilities.status := 200;
                   Capabilities.body := PDict {[ "message" := m ]} |},
         Sample.set_messages (<[mid := m]> (Sample.messages self)) self)
    | Raise e =>
        if is_KeyError e
        then (Return {| Capabilities.status := 400;
                        Capabilities.body :=
                          PDict {[ "message" := PStr "missing message" ]} |},
              self)
        else (Raise e, self)
    end.
Proof.
  unfold Sample.Message_patch, Sample.store_message. py_unfold.
  destruct (py_getitem request "message") as [m|e]; simpl.
  - unfold dict_getitem. now rewrite lookup_insert_eq.
  - now destruct (is_KeyError e).
Qed.

(** X16.  A GET on [/message/{mid}] for an id that is in the store answers
    with status 200 and a body that holds the stored message under the key
    [message], and leaves the store as it is.  Together with the 404 of an
    unknown id, the status tells whether the id is in the store. *)
Theorem Message_get_status_tells_membership
    (request : pyval) (mid : string) (self : Sample.Sample) :
  (forall m, Sample.messages self !! mid = Some m ->
     Sample.Message_get request mid self =
       (Return {| Capabilities.body := PDict {[ "message" := m ]};
                  Capabilities.status := 200 |}, self)) /\
  exists response,
    Sample.Message_get request mid self = (Return response, self) /\
    (Capabilities.status response = 200%Z <->
       is_Some (Sample.messages self !! mid)) /\
    (Capabilities.status response = 404%Z <->
       Sample.messages self !! mid = None).
Proof.
  split; [intros m; apply Message_get_known|].
  destruct (Sample.messages self !! mid) as [m|] eqn:Hm.
  - eexists. split; [exact (Message_get_known request mid self m Hm)|]. simpl.
    split; split; intros H; try reflexivity; try discriminate H; eauto.
  - eexists. split; [exact (Message_get_unknown request mid self Hm)|]. simpl.
    split; split; intros H; try reflexivity; try discriminate H.
    destruct H as [x Hx]. discriminate Hx.
Qed.

Lemma Message_get_status_tells_membership_witness :
  Sample.Message_get PNone "1" Fixtures.a_sample =
    (Return {| Capabilities.body := PDict {[ "message" := PStr "message 1" ]};
               Capabilities.status := 200 |}, Fixtures.a_sample).
Proof.
  apply (proj1 (Message_get_status_tells_membership PNone "1" Fixtures.a_sample)).
  reflexivity.
Defined.

(** X17.  What a PATCH on [/message/{mid}] stored is what a GET on the same
    id returns afterwards: the GET answers with the very response the PATCH
    gave, status 200 and the message. *)
Theorem Message_get_after_patch
    (request : gmap string pyval) (request' : pyval) (mid : string)
    (self self' : Sample.Sample) (m : pyval)
    (response : result Capabilities.Response) :
  request !! "message" = Some m ->
  Sample.Message_patch (PDict request) mid self = (response, self') ->
  Sample.Message_get request' mid self' = (response, self') /\
  response = Return {| Capabilities.body := PDict {[ "message" := m ]};
                       Capabilities.status := 200 |}.
Proof.
  intros Hm Hpatch. rewrite Message_patch_cases in Hpatch.
  simpl in Hpatch. unfold dict_getitem in Hpatch. rewrite Hm in Hpatch.
  injection Hpatch as <- <-. split; [|reflexivity].
  apply Message_get_known. simpl. apply lookup_insert_eq.
Qed.

Lemma Message_get_after_patch_witness :
  Sample.Message_get PNone "3"
    (snd (Sample.Message_patch (PDict {[ "message" := PStr "hi" ]}) "3"
            Fixtures.a_sample)) =
    (Return {| Capabilities.body := PDict {[ "message" := PStr "hi" ]};
               Capabilities.status := 200 |},
     snd (Sample.Message_patch (PDict {[ "message" := PStr "hi" ]}) "3"
            Fixtures.a_sample)).
Proof.
  destruct (Message_get_after_patch {[ "message" := PStr "hi" ]} PNone "3"
              Fixtures.a_sample
              (snd (Sample.Message_patch (PDict {[ "message" := PStr "hi" ]}) "3"
                      Fixtures.a_sample))
              (PStr "hi")
              (fst (Sample.Message_patch (PDict {[ "message" := PStr "hi" ]}) "3"
                      Fixtures.a_sample)))
    as [Hget Hresp]; [reflexivity | reflexivity |].
  rewrite <- Hresp. exact Hget.
Defined.

(** X18.  A PATCH on [/message/{mid}], whatever its body and its outcome,
    changes the answer of a GET for no other id, and never touches the
    inherited agent. *)
Theorem Message_patch_leaves_other_ids
    (request request' : pyval) (mid mid' : string)
    (self self' : Sample.Sample) (r : result Capabilities.Response) :
  Sample.Message_patch request mid self = (r, self') ->
  mid' <> mid ->
  Sample.messages self' !! mid' = Sample.messages self !! mid' /\
  fst (Sample.Message_get request' mid' self') =
    fst (Sample.Message_get request' mid' self) /\
  Sample.nyuki self' = Sample.nyuki self.
Proof.
  intros Hpatch Hne. rewrite Message_patch_cases in Hpatch.
  assert (Hlookup : Sample.messages self' !! mid' = Sample.messages self !! mid'
                    /\ Sample.nyuki self' = Sample.nyuki self).
  { destruct (py_getitem request "message") as [m|e].
    - injection Hpatch as _ <-. simpl.
      split; [|reflexivity]. apply lookup_insert_ne. congruence.
    - destruct (is_KeyError e); injection Hpatch as _ <-; split; reflexivity. }
  destruct Hlookup as [Hlookup Hnyuki].
  split; [exact Hlookup|]. split; [|exact Hnyuki].
  destruct (Sample.messages self !! mid') as [m|] eqn:Hm.
  - rewrite (Message_get_known request' mid' self m Hm).
    now rewrite (Message_get_known request' mid' self' m Hlookup).
  - rewrite (Message_get_unknown request' mid' self Hm).
    now rewrite (Message_get_unknown request' mid' self' Hlookup).
Qed.

Lemma Message_patch_leaves_other_ids_witness :
  Sample.messages
    (snd (Sample.Message_patch (PDict {[ "message" := PStr "hi" ]}) "1"
            Fixtures.a_sample)) !! "2" = Some (PStr "message 2").
Proof.
  destruct (Message_patch_leaves_other_ids
              (PDict {[ "message" := PStr "hi" ]}) PNone "1" "2"
              Fixtures.a_sample
              (snd (Sample.Message_patch (PDict {[ "message" := PStr "hi" ]}) "1"
                      Fixtures.a_sample))
              (fst (Sample.Message_patch (PDict {[ "message" := PStr "hi" ]}) "1"
                      Fixtures.a_sample)))
    as (Hlookup & _ & _); [reflexivity | discriminate |].
  rewrite Hlookup. reflexivity.
Defined.

(** X19.  A PATCH on [/message/{mid}] whose body is not a mapping (a list,
    a string, a number, a boolean or [None]) is not answered with a 400:
    the subscript raises [TypeError], which the handler does not catch, and
    the store is unchanged. *)
Theorem Message_patch_body_not_a_mapping
    (request : pyval) (mid : string) (self : Sample.Sample) :
  (forall d, request <> PDict d) ->
  exists msg,
    Sample.Message_patch request mid self = (Raise (TypeError msg), self).
Proof.
  intros Hnot. rewrite Message_patch_cases.
  destruct request; simpl; eauto. now destruct (Hnot d).
Qed.

Lemma Message_patch_body_not_a_mapping_witness :
  exists msg,
    Sample.Message_patch (PList [PStr "message"]) "1" Fixtures.a_sample =
      (Raise (TypeError msg), Fixtures.a_sample).
Proof.
  apply (Message_patch_body_not_a_mapping (PList [PStr "message"]) "1"
           Fixtures.a_sample).
  intros d H. discriminate H.
Defined.

Lemma Messages_post_runs (request : gmap string pyval) (self : Sample.Sample) :
  Sample.Messages_post request self =
    (Return (Capabilities.Response_of (PDict (request ∪ Sample.messages self))),
     Sample.set_messages (request ∪ Sample.messages self) self).
Proof. reflexivity. Qed.

(** X20.  A POST on [/message] with a JSON object merges it into the store:
    every entry of the body is in the store afterwards, every id the body
    does not mention keeps what it had, and an empty body changes nothing.
    The response is the whole store, the same a GET on [/message] gives
    afterwards. *)
Theorem Messages_post_merges_into_store
    (request : gmap string pyval) (request' : pyval) (self : Sample.Sample) :
  exists self',
    Sample.Messages_post request self =
      (Return (Capabilities.Response_of (PDict (Sample.messages self'))), self') /\
    (forall k v, request !! k = Some v -> Sample.messages self' !! k = Some v) /\
    (forall k, request !! k = None ->
       Sample.messages self' !! k = Sample.messages self !! k) /\
    Sample.Messages_get request' self' =
      (Return (Capabilities.Response_of (PDict (Sample.messages self'))), self') /\
    (request = ∅ -> self' = self).
Proof.
  exists (Sample.set_messages (request ∪ Sample.messages self) self).
  split; [apply Messages_post_runs|]. simpl.
  split; [|split; [|split]].
  - intros k v Hk. now apply lookup_union_Some_l.
  - intros k Hk. now apply lookup_union_r.
  - reflexivity.
  - intros ->. unfold Sample.set_messages. rewrite (left_id_L ∅ (∪)).
    now destruct self.
Qed.

Lemma Messages_post_merges_into_store_witness :
  Sample.messages
    (snd (Sample.Messages_post {[ "3" := PStr "hi" ]} Fixtures.a_sample)) !! "3"
    = Some (PStr "hi") /\
  Sample.messages
    (snd (Sample.Messages_post {[ "3" := PStr "hi" ]} Fixtures.a_sample)) !! "1"
    = Some (PStr "message 1").
Proof.
  destruct (Messages_post_merges_into_store {[ "3" := PStr "hi" ]} PNone
              Fixtures.a_sample)
    as (self' & Hrun & Hin & Hout & _).
  rewrite Hrun. simpl. split.
  - apply Hin. reflexivity.
  - rewrite Hout; reflexivity.
Defined.

(** X21.  Posting the same body on [/message] twice is the same as posting
    it once: same store, same response. *)
Theorem Messages_post_idempotent
    (request : gmap string pyval) (self : Sample.Sample) :
  Sample.Messages_post request (snd (Sample.Messages_post request self)) =
    Sample.Messages_post request self.
Proof.
  rewrite !Messages_post_runs. simpl. unfold Sample.set_messages. simpl.
  now rewrite (assoc_L (∪)), (idemp_L (∪)).
Qed.

(** X22.  A PATCH on [/message/{mid}] with a message leaves the store that
    a POST on [/message] of the single entry [mid] with that message
    leaves. *)
Theorem Message_patch_as_post
    (request : gmap string pyval) (mid : string) (m : pyval)
    (self : Sample.Sample) :
  request !! "message" = Some m ->
  snd (Sample.Message_patch (PDict request) mid self) =
    snd (Sample.Messages_post {[ mid := m ]} self).
Proof.
  intros Hm. rewrite Message_patch_cases, Messages_post_runs. simpl.
  unfold dict_getitem. rewrite Hm. simpl.
  now rewrite insert_union_singleton_l.
Qed.

Lemma Message_patch_as_post_witness :
  snd (Sample.Message_patch (PDict {[ "message" := PStr "hi" ]}) "3"
         Fixtures.a_sample) =
    snd (Sample.Messages_post {[ "3" := PStr "hi" ]} Fixtures.a_sample).
Proof.
  apply (Message_patch_as_post {[ "message" := PStr "hi" ]} "3" (PStr "hi")
           Fixtures.a_sample).
  reflexivity.
Defined.

(** X23.  The two GET handlers agree: the body of a GET on [/message] is the
    store, and it holds a message under an id exactly when a GET on
    [/message/{mid}] for that id answers 200 with that message.  Neither
    handler changes the store. *)
Theorem Messages_get_agrees_with_Message_get
    (request request' : pyval) (mid : string) (m : pyval)
    (self : Sample.Sample) :
  exists store,
    Sample.Messages_get request self =
      (Return {| Capabilities.body := PDict store;
                 Capabilities.status := 200 |}, self) /\
    (store !! mid = Some m <->
       Sample.Message_get request' mid self =
         (Return {| Capabilities.body := PDict {[ "message" := m ]};
                    Capabilities.status := 200 |}, self)).
Proof.
  exists (Sample.messages self). split; [reflexivity|]. split.
  - apply Message_get_known.
  - destruct (Sample.messages self !! mid) as [m'|] eqn:Hm.
    + rewrite (Message_get_known request' mid self m' Hm).
      intros H.
      apply (f_equal
               (fun out : result Capabilities.Response * Sample.Sample =>
                  match fst out with
                  | Return {| Capabilities.body := PDict d |} => d !! "message"
                  | _ => None
                  end)) in H.
      cbn [fst Capabilities.body] in H.
      now rewrite !lookup_singleton_eq in H.
    + rewrite (Message_get_unknown request' mid self Hm). discriminate.
Qed.

Lemma Messages_get_agrees_with_Message_get_witness :
  Sample.Message_get PNone "2" Fixtures.a_sample =
    (Return {| Capabilities.body := PDict {[ "message" := PStr "message 2" ]};
               Capabilities.status := 200 |}, Fixtures.a_sample).
Proof.
  destruct (Messages_get_agrees_with_Message_get PNone PNone "2"
              (PStr "message 2") Fixtures.a_sample)
    as (store & Hall & Hiff).
  apply (proj1 Hiff). injection Hall as <-. reflexivity.
Defined.

(* ===================================================================== *)
(** ** The construction of the bus *)
(* ===================================================================== *)

Lemma _make_bus_unfold (env : Agent.Collaborators) (self : Agent.Nyuki) :
  Agent._make_bus env self =
    match py_getitem (Agent._config self) "bus" with
    | Raise e => (Raise e, self)
    | Return bus_conf =>
        match py_kwargs bus_conf with
        | Raise e => (Raise e, self)
        | Return kw =>
            if dict_contains "loop" kw || dict_contains "event_manager" kw
            then (Raise (TypeError "got multiple values for keyword argument"),
                  self)
            else
              match Agent.Bus_outcome env kw with
              | Some e => (Raise e, self)
              | None =>
                  let b := {| Agent.oid := Agent.constructed self;
                              Agent.kwargs := kw |} in
                  (Return b,
                   Agent.set_calls (Agent.calls self ++ [Agent.Bus_init b])
                     (Agent.set_constructed (S (Agent.constructed self)) self))
              end
        end
    end.
Proof.
  unfold Agent._make_bus, Agent.Bus_new, Agent.call. py_unfold.
  destruct (py_getitem (Agent._config self) "bus") as [bc|e]; [|reflexivity].
  destruct (py_kwargs bc) as [kw|e]; [|reflexivity].
  destruct (dict_contains "loop" kw || dict_contains "event_manager" kw);
    [reflexivity|].
  destruct (Agent.Bus_outcome env kw); reflexivity.
Qed.

Lemma _make_bus_runs (env : Agent.Collaborators) (self : Agent.Nyuki)
    (cfg kw : gmap string pyval) :
  Agent._config self = PDict cfg ->
  cfg !! "bus" = Some (PDict kw) ->
  kw !! "loop" = None ->
  kw !! "event_manager" = None ->
  Agent.Bus_outcome env kw = None ->
  let b := {| Agent.oid := Agent.constructed self; Agent.kwargs := kw |} in
  Agent._make_bus env self =
    (Return b,
     Agent.set_calls (Agent.calls self ++ [Agent.Bus_init b])
       (Agent.set_constructed (S (Agent.constructed self)) self)).
Proof.
  intros Hcfg Hbus Hloop Hem Hctor b. rewrite _make_bus_unfold.
  rewrite Hcfg. simpl. unfold dict_getitem. rewrite Hbus. simpl.
  rewrite (dict_contains_false _ _ Hloop), (dict_contains_false _ _ Hem). simpl.
  now rewrite Hctor.
Qed.

(** X24.  [_make_bus] builds a bus from the [bus] entry of the
    configuration when that entry is a mapping which names neither [loop]
    nor [event_manager] and which the constructor accepts; it returns the
    bus without assigning it, so the agent still holds the bus it had, and
    two buses made in a row are distinct objects with the same keyword
    arguments.  A missing entry raises [KeyError]; an entry that is not a
    mapping, or one that names [loop] or [event_manager], raises
    [TypeError].  Whenever the method raises, the agent is unchanged. *)
Theorem _make_bus_builds_without_assigning
    (env : Agent.Collaborators) (self : Agent.Nyuki) (cfg : gmap string pyval) :
  Agent._config self = PDict cfg ->
  (forall kw,
     cfg !! "bus" = Some (PDict kw) ->
     kw !! "loop" = None ->
     kw !! "event_manager" = None ->
     Agent.Bus_outcome env kw = None ->
     exists self' self'' b b',
       Agent._make_bus env self = (Return b, self') /\
       Agent._make_bus env self' = (Return b', self'') /\
       Agent.kwargs b = kw /\ Agent.kwargs b' = kw /\ b <> b' /\
       Agent._bus self'' = Agent._bus self /\
       Agent.calls self'' = Agent.calls self ++ [Agent.Bus_init b; Agent.Bus_init b']) /\
  (cfg !! "bus" = None ->
     Agent._make_bus env self = (Raise (KeyError "bus"), self)) /\
  (forall v, cfg !! "bus" = Some v -> (forall kw, v <> PDict kw) ->
     exists msg, Agent._make_bus env self = (Raise (TypeError msg), self)) /\
  (forall kw, cfg !! "bus" = Some (PDict kw) ->
     is_Some (kw !! "loop") \/ is_Some (kw !! "event_manager") ->
     exists msg, Agent._make_bus env self = (Raise (TypeError msg), self)) /\
  (forall e self', Agent._make_bus env self = (Raise e, self') -> self' = self).
Proof.
  intros Hcfg. split; [|split; [|split; [|split]]].
  - intros kw Hbus Hloop Hem Hctor.
    do 4 eexists.
    split; [exact (_make_bus_runs env self cfg kw Hcfg Hbus Hloop Hem Hctor)|].
    split; [apply (_make_bus_runs env _ cfg kw); assumption|].
    simpl. split; [reflexivity|]. split; [reflexivity|].
    split; [intros [= H]; lia|]. split; [reflexivity|].
    now rewrite <- app_assoc.
  - intros Hbus. rewrite _make_bus_unfold, Hcfg. simpl.
    unfold dict_getitem. now rewrite Hbus.
  - intros v Hbus Hnot. rewrite _make_bus_unfold, Hcfg. simpl.
    unfold dict_getitem. rewrite Hbus.
    destruct v; simpl; eauto. now destruct (Hnot d).
  - intros kw Hbus Hdup. rewrite _make_bus_unfold, Hcfg. simpl.
    unfold dict_getitem. rewrite Hbus. simpl.
    assert (Hor : dict_contains "loop" kw || dict_contains "event_manager" kw
                  = true).
    { unfold dict_contains.
      destruct Hdup as [[x Hx]|[x Hx]]; rewrite Hx; simpl;
        [reflexivity | apply orb_true_r]. }
    rewrite Hor. eauto.
  - intros e self'. rewrite _make_bus_unfold.
    destruct (py_getitem (Agent._config self) "bus") as [bc|e'];
      [|now intros [= _ <-]].
    destruct (py_kwargs bc) as [kw|e']; [|now intros [= _ <-]].
    destruct (dict_contains "loop" kw || dict_contains "event_manager" kw);
      [now intros [= _ <-]|].
    destruct (Agent.Bus_outcome env kw); [now intros [= _ <-]|].
    discriminate.
Qed.

Lemma _make_bus_builds_without_assigning_witness :
  (exists b self',
     Agent._make_bus Fixtures.collaborators Fixtures.a_nyuki = (Return b, self') /\
     Agent.kwargs b = Fixtures.a_bus_conf /\
     Agent._bus self' = Agent._bus Fixtures.a_nyuki) /\
  (exists msg,
     Agent._make_bus Fixtures.collaborators
       (Agent.set_config
          (PDict (<["bus" := PDict (<["loop" := PNone]> Fixtures.a_bus_conf)]>
                    Fixtures.a_config))
          Fixtures.a_nyuki) =
       (Raise (TypeError msg),
        Agent.set_config
          (PDict (<["bus" := PDict (<["loop" := PNone]> Fixtures.a_bus_conf)]>
                    Fixtures.a_config))
          Fixtures.a_nyuki)).
Proof.
  split.
  - destruct (proj1 (_make_bus_builds_without_assigning Fixtures.collaborators
                       Fixtures.a_nyuki Fixtures.a_config eq_refl)
                Fixtures.a_bus_conf)
      as (self' & self'' & b & b' & Hrun & _ & Hkw & _); try reflexivity.
    exists b, self'. split; [exact Hrun|]. split; [exact Hkw|].
    rewrite _make_bus_unfold in Hrun. vm_compute in Hrun.
    injection Hrun as _ <-. reflexivity.
  - apply (proj1 (proj2 (proj2 (proj2
             (_make_bus_builds_without_assigning Fixtures.collaborators
                (Agent.set_config
                   (PDict (<["bus" := PDict (<["loop" := PNone]> Fixtures.a_bus_conf)]>
                             Fixtures.a_config))
                   Fixtures.a_nyuki)
                (<["bus" := PDict (<["loop" := PNone]> Fixtures.a_bus_conf)]>
                   Fixtures.a_config) eq_refl))))
             (<["loop" := PNone]> Fixtures.a_bus_conf)).
    + reflexivity.
    + left. exists PNone. reflexivity.
Defined.
